(** * KRP WhatsApp server: the route handlers and session callbacks of
    [server.js], embedded shallowly and checked against their specification.

    The program is a single Node.js file.  Two revisions of it are in the
    repository; they agree on every handler modelled here except [/qr],
    which only the later revision has.  Line numbers in the comments refer
    to the later revision unless [server.js] is named.

    Conventions of the embedding:
    - a JavaScript string is a [string]: the sequence of the bytes of its
      UTF-8 encoding.  The ASCII digits and the ASCII text ['@c.us'] occupy
      one byte each and no byte of a longer sequence is below 128, so
      [/[^0-9]/g], [startsWith('91')], [replace('@c.us', '')] and
      [length === 10] on digit strings read the same on bytes as on UTF-16
      code units;
    - a JSON value is a [JsValue]; numbers are rationals, which cover every
      finite double a JSON text can denote;
    - the external collaborators (the session client, the relay endpoint,
      the timer) are an [Env] of outcome functions, and every command sent
      to them is logged, with its outcome, in the [history] of the [World];
    - an [async] handler is a computation in the monad [M]: it reads the
      [Env], updates the [World] and either returns or throws. *)

From Stdlib Require Import String Ascii List Bool Arith ZArith QArith Lia.
Import ListNotations.
Local Close Scope Q_scope.
Local Open Scope nat_scope.
Local Open Scope list_scope.
Local Open Scope string_scope.
Set Warnings "-register-all".

(** ** JavaScript values *)

Inductive JsValue : Type :=
| JUndefined
| JNull
| JBool (b : bool)
| JNum (q : Q)
| JStr (s : string)
| JArr (items : list JsValue)
| JObj (props : list (string * JsValue)).

(** [ToBoolean]: what [!v] and [if (v)] test. *)
Definition truthy (v : JsValue) : bool :=
  match v with
  | JUndefined | JNull => false
  | JBool b => b
  | JNum q => negb (Qeq_bool q (0 # 1))
  | JStr s => negb (String.eqb s "")
  | JArr _ | JObj _ => true
  end.

(** [Array.isArray(v)]. *)
Definition isArray (v : JsValue) : bool :=
  match v with JArr _ => true | _ => false end.

(** Own-property read on the property list of an object literal or of a
    parsed JSON object: the value stored under [key], [undefined] when the
    object has no such property. *)
Fixpoint lookupProp (key : string) (props : list (string * JsValue)) : JsValue :=
  match props with
  | [] => JUndefined
  | (k, v) :: rest => if String.eqb k key then v else lookupProp key rest
  end.

(** The number a count ([Array.prototype.length]) denotes. *)
Definition numOfNat (n : nat) : JsValue := JNum (Z.of_nat n # 1).

(** An [Error] object, as thrown or as the reason of a rejected promise;
    the handlers only ever read its [message]. *)
Record JsError : Type := MkError { errorMessage : string }.

(** The [TypeError] V8 raises for [v.replace(...)] when [v] is not a string:
    reading a property of [null] or [undefined] fails, and on every other
    JSON value [replace] is not a function. *)
Definition replaceTypeError (v : JsValue) : JsError :=
  match v with
  | JNull => MkError "Cannot read properties of null (reading 'replace')"
  | JUndefined => MkError "Cannot read properties of undefined (reading 'replace')"
  | _ => MkError "phone.replace is not a function"
  end.

(** The [TypeError] for [v.key] when [v] is [null] or [undefined]. *)
Definition propTypeError (key : string) (v : JsValue) : JsError :=
  match v with
  | JNull => MkError ("Cannot read properties of null (reading '" ++ key ++ "')")
  | _ => MkError ("Cannot read properties of undefined (reading '" ++ key ++ "')")
  end.

(** [v.key] on a value that is neither [null] nor [undefined], for the keys
    the program reads ([reply], [success]): none of them is a property that
    arrays, strings, numbers, booleans or [Object.prototype] supply, so only
    an object that owns the key yields a value. *)
Definition prop (key : string) (v : JsValue) : JsValue :=
  match v with
  | JObj props => lookupProp key props
  | _ => JUndefined
  end.

(** ** String operations of the handlers *)

(** The character class [[0-9]]. *)
Definition isDigit (c : ascii) : bool :=
  Nat.leb 48 (nat_of_ascii c) && Nat.leb (nat_of_ascii c) 57.

(** [s.replace(/[^0-9]/g, '')]: every character outside [[0-9]] is removed. *)
Fixpoint stripNonDigits (s : string) : string :=
  match s with
  | EmptyString => EmptyString
  | String c rest =>
      if isDigit c then String c (stripNonDigits rest) else stripNonDigits rest
  end.

(** [s.startsWith(p)]. *)
Definition startsWith (p s : string) : bool := String.prefix p s.

(** The normalisation both [/send] (lines 247-250; [server.js] 211-214) and
    [/send-bulk] (lines 292-295; [server.js] 256-259) apply to a phone
    string:
<<
      let phoneNumber = phone.replace(/[^0-9]/g, '');
      if (!phoneNumber.startsWith('91') && phoneNumber.length === 10) {
        phoneNumber = '91' + phoneNumber;
      }
>> *)
Definition phoneNumber (phone : string) : string :=
  let phoneNumber := stripNonDigits phone in
  if negb (startsWith "91" phoneNumber) && Nat.eqb (String.length phoneNumber) 10
  then "91" ++ phoneNumber
  else phoneNumber.

(** [const chatId = phoneNumber + '@c.us';] *)
Definition chatId (phone : string) : string := phoneNumber phone ++ "@c.us".

(** [s.replace(pat, by)] with a string pattern: the first occurrence of
    [pat] is replaced, a string without one is returned as it is. *)
Fixpoint replaceFirst (pat by_ s : string) : string :=
  if String.prefix pat s
  then by_ ++ String.substring (String.length pat) (String.length s - String.length pat) s
  else match s with
       | EmptyString => EmptyString
       | String c rest => String c (replaceFirst pat by_ rest)
       end.

(** White space in the sense of [String.prototype.trim], as UTF-8 byte
    sequences: TAB, LF, VT, FF, CR, SP, U+00A0, U+1680, U+2000..U+200A,
    U+2028, U+2029, U+202F, U+205F, U+3000 and U+FEFF. *)
Definition whiteSpace : list (list nat) :=
  [ [9]; [10]; [11]; [12]; [13]; [32];
    [194; 160]; [225; 154; 128];
    [226; 128; 128]; [226; 128; 129]; [226; 128; 130]; [226; 128; 131];
    [226; 128; 132]; [226; 128; 133]; [226; 128; 134]; [226; 128; 135];
    [226; 128; 136]; [226; 128; 137]; [226; 128; 138];
    [226; 128; 168]; [226; 128; 169]; [226; 128; 175];
    [226; 129; 159]; [227; 128; 128]; [239; 187; 191] ].

Definition bytesOf (s : string) : list nat :=
  map nat_of_ascii (list_ascii_of_string s).

Definition ofBytes (l : list nat) : string :=
  string_of_list_ascii (map ascii_of_nat l).

Fixpoint startsWithBytes (p l : list nat) : bool :=
  match p, l with
  | [], _ => true
  | x :: p', y :: l' => Nat.eqb x y && startsWithBytes p' l'
  | _ :: _, [] => false
  end.

(** Length of the white-space character [l] starts with, from the table
    [ws]; 0 when it starts with none. *)
Fixpoint leadingSpace (ws : list (list nat)) (l : list nat) : nat :=
  match ws with
  | [] => 0
  | w :: ws' => if startsWithBytes w l then List.length w else leadingSpace ws' l
  end.

Fixpoint dropLeading (ws : list (list nat)) (fuel : nat) (l : list nat) : list nat :=
  match fuel with
  | 0 => l
  | S fuel' =>
      match leadingSpace ws l with
      | 0 => l
      | n => dropLeading ws fuel' (skipn n l)
      end
  end.

(** [s.trim()]: white space is removed at both ends.  Every step drops at
    least one byte, so the number of bytes is fuel enough. *)
Definition trim (s : string) : string :=
  let l := bytesOf s in
  let l1 := dropLeading whiteSpace (List.length l) l in
  let r := dropLeading (map (@rev nat) whiteSpace) (List.length l1) (rev l1) in
  ofBytes (rev r).

(** ** Connection state, collaborators, effects *)

(** The two module-level variables (lines 23-24):
    [let qrCodeData = ''; let isReady = false;]. *)
Record State : Type := { isReady : bool; qrCodeData : string }.

Definition initialState : State := {| isReady := false; qrCodeData := "" |}.

(** An inbound message of the session client, as far as the program reads
    it: [message.from] and [message.body]. *)
Record Message : Type := { from : string; body : string }.

(** What [response.json()] settles to. *)
Inductive JsonResult : Type :=
| NotJson (e : JsError)
| Json (v : JsValue).

(** What [fetch(url, options)] settles to. *)
Inductive FetchResult : Type :=
| Rejects (e : JsError)
| Resolves (response : JsonResult).

(** The commands the program issues to its collaborators, each with the
    outcome it had ([None]: the promise resolved; [Some e]: it rejected
    with [e]). *)
Inductive Effect : Type :=
| SendMessage (to_ : string) (content : JsValue) (outcome : option JsError)
| SetTimeout (ms : nat)
| Fetch (url : string) (payload : JsValue) (outcome : FetchResult)
| Reply (to_ : Message) (content : JsValue) (outcome : option JsError)
| Logout (outcome : option JsError).

(** Behaviour of the collaborators: the outcome of a command may depend on
    everything that was issued before it. *)
Record Env : Type := {
  sendMessage : list Effect -> string -> JsValue -> option JsError;
  logout : list Effect -> option JsError;
  fetch : list Effect -> string -> JsValue -> FetchResult;
  reply : list Effect -> Message -> JsValue -> option JsError;
  toDataURL : string -> JsError + string
}.

(** The state a handler runs in: the connection state, the log of the
    commands issued so far (oldest first), and the array [results] of the
    [/send-bulk] call in progress (line 288). *)
Record World : Type := {
  conn : State;
  history : list Effect;
  results : list JsValue
}.

(** ** The monad of handlers *)

Inductive Res (A : Type) : Type :=
| Normal (a : A)
| Thrown (e : JsError).
Arguments Normal {A} a.
Arguments Thrown {A} e.

Definition M (A : Type) : Type := Env -> World -> Res A * World.

Definition ret {A} (a : A) : M A := fun _ w => (Normal a, w).

Definition bind {A B} (m : M A) (k : A -> M B) : M B :=
  fun env w =>
    match m env w with
    | (Normal a, w') => k a env w'
    | (Thrown e, w') => (Thrown e, w')
    end.

Definition throw {A} (e : JsError) : M A := fun _ w => (Thrown e, w).

(** [try { block } catch (error) { handler }] *)
Definition tryCatch {A} (block : M A) (handler : JsError -> M A) : M A :=
  fun env w =>
    match block env w with
    | (Normal a, w') => (Normal a, w')
    | (Thrown e, w') => handler e env w'
    end.

Declare Scope js_scope.
Delimit Scope js_scope with js.
Notation "x <- m ;; k" := (bind m (fun x => k))
  (at level 61, m at next level, right associativity) : js_scope.
Notation "m ;; k" := (bind m (fun _ => k))
  (at level 61, right associativity) : js_scope.
Local Open Scope js_scope.

Definition readReady : M bool := fun _ w => (Normal (isReady (conn w)), w).
Definition readQr : M string := fun _ w => (Normal (qrCodeData (conn w)), w).

Definition writeReady (b : bool) : M unit :=
  fun _ w =>
    (Normal tt,
     {| conn := {| isReady := b; qrCodeData := qrCodeData (conn w) |};
        history := history w; results := results w |}).

Definition writeQr (s : string) : M unit :=
  fun _ w =>
    (Normal tt,
     {| conn := {| isReady := isReady (conn w); qrCodeData := s |};
        history := history w; results := results w |}).

Definition writeResults (l : list JsValue) : M unit :=
  fun _ w => (Normal tt, {| conn := conn w; history := history w; results := l |}).

Definition readResults : M (list JsValue) := fun _ w => (Normal (results w), w).

(** [results.push(r)] *)
Definition pushResult (r : JsValue) : M unit :=
  fun _ w =>
    (Normal tt,
     {| conn := conn w; history := history w; results := (results w ++ [r])%list |}).

Definition issue (e : Effect) (w : World) : World :=
  {| conn := conn w; history := (history w ++ [e])%list; results := results w |}.

Definition settle (o : option JsError) (w : World) : Res unit * World :=
  match o with
  | None => (Normal tt, w)
  | Some e => (Thrown e, w)
  end.

(** [await client.sendMessage(chatId, message)] *)
Definition awaitSendMessage (to_ : string) (content : JsValue) : M unit :=
  fun env w =>
    let o := sendMessage env (history w) to_ content in
    settle o (issue (SendMessage to_ content o) w).

(** [await new Promise(resolve => setTimeout(resolve, ms))]: never rejects. *)
Definition awaitTimeout (ms : nat) : M unit :=
  fun _ w => (Normal tt, issue (SetTimeout ms) w).

(** [await client.logout()] *)
Definition awaitLogout : M unit :=
  fun env w =>
    let o := logout env (history w) in
    settle o (issue (Logout o) w).

(** [await fetch(url, { method: 'POST', headers, body: JSON.stringify(payload) })] *)
Definition awaitFetch (url : string) (payload : JsValue) : M JsonResult :=
  fun env w =>
    let o := fetch env (history w) url payload in
    let w' := issue (Fetch url payload o) w in
    match o with
    | Rejects e => (Thrown e, w')
    | Resolves response => (Normal response, w')
    end.

(** [await response.json()] *)
Definition awaitJson (response : JsonResult) : M JsValue :=
  match response with
  | NotJson e => throw e
  | Json v => ret v
  end.

(** [await message.reply(content)] *)
Definition awaitReply (msg : Message) (content : JsValue) : M unit :=
  fun env w =>
    let o := reply env (history w) msg content in
    settle o (issue (Reply msg content o) w).

(** [v.key], which throws on [null] and [undefined]. *)
Definition getProp (key : string) (v : JsValue) : M JsValue :=
  match v with
  | JUndefined | JNull => throw (propTypeError key v)
  | _ => ret (prop key v)
  end.

(** ** HTTP requests and responses *)

(** [req.body] as the [bodyParser.json()] middleware of line 19 leaves it:
    the JSON object or array the request carried, and the empty object when
    it carried none. *)
Inductive Body : Type :=
| BodyObject (props : list (string * JsValue))
| BodyArray (items : list JsValue).

(** One variable of a destructuring [const { key } = req.body]. *)
Definition field (key : string) (b : Body) : JsValue :=
  match b with
  | BodyObject props => lookupProp key props
  | BodyArray _ => JUndefined
  end.

(** What a handler answers: [res.status(status).json(json)]; [res.json]
    alone answers with status 200. *)
Record Response : Type := { status : nat; json : JsValue }.

Definition respond (code : nat) (payload : JsValue) : Response :=
  {| status := code; json := payload |}.

(** The elements a [for ... of] loop over [v] visits. *)
Definition elements (v : JsValue) : list JsValue :=
  match v with
  | JArr items => items
  | _ => []
  end.

(** ** Session callbacks (lines 55-98; [server.js] 52-95) *)

(** [client.on('qr', async (qr) => { try { qrCodeData = await
    qrcode.toDataURL(qr); } catch (err) { ... } })]; the assignment is run
    when the encoding has settled. *)
Definition on_qr (qr : string) : M unit :=
  tryCatch
    (fun env w =>
       match toDataURL env qr with
       | inr image => writeQr image env w
       | inl err => (Thrown err, w)
       end)
    (fun err => ret tt).

(** [client.on('ready', () => { isReady = true; qrCodeData = ''; })] *)
Definition on_ready : M unit :=
  writeReady true ;;
  writeQr "".

(** [client.on('authenticated', () => { console.log(...) })] *)
Definition on_authenticated : M unit := ret tt.

(** [client.on('auth_failure', (msg) => { isReady = false; })] *)
Definition on_auth_failure (msg : string) : M unit :=
  writeReady false.

(** [client.on('disconnected', (reason) => { isReady = false;
    qrCodeData = ''; })] *)
Definition on_disconnected (reason : string) : M unit :=
  writeReady false ;;
  writeQr "".

(** Line 27; the earlier revision names another deployment. *)
Definition GOOGLE_SCRIPT_URL : string :=
  "https://script.google.com/macros/s/AKfycbw0Oh6ds0OaYon7I8G5n58Fjv-eTki2SzQKvJE6chMVGtbQtCYLhi-G5PlASfNQui0/exec".

(** Lines 108-139 ([server.js] 105-136). *)
Definition handleIncomingMessage (msg : Message) : M unit :=
  tryCatch
    (let phoneNumber := replaceFirst "@c.us" "" (from msg) in
     let text := trim (body msg) in
     response <- awaitFetch GOOGLE_SCRIPT_URL
                   (JObj [("action", JStr "processMessage");
                          ("from", JStr phoneNumber);
                          ("message", JStr text)]) ;;
     result <- awaitJson response ;;
     answer <- getProp "reply" result ;;
     if truthy answer
     then awaitReply msg answer
     else ret tt)
    (fun error => ret tt).

(** [client.on('message', async (message) => { ...; await
    handleIncomingMessage(message); })] *)
Definition on_message (msg : Message) : M unit :=
  handleIncomingMessage msg.

(** The lifecycle events of the session client and the callback each one
    runs. *)
Inductive ClientEvent : Type :=
| EvQr (qr : string)
| EvReady
| EvAuthenticated
| EvAuthFailure (msg : string)
| EvMessage (msg : Message)
| EvDisconnected (reason : string).

Definition dispatch (ev : ClientEvent) : M unit :=
  match ev with
  | EvQr qr => on_qr qr
  | EvReady => on_ready
  | EvAuthenticated => on_authenticated
  | EvAuthFailure msg => on_auth_failure msg
  | EvMessage msg => on_message msg
  | EvDisconnected reason => on_disconnected reason
  end.

(** ** Routes *)

(** [app.get('/qr', ...)], lines 178-198. *)
Definition get_qr : M Response :=
  ready <- readReady ;;
  if ready then
    ret (respond 200 (JObj [("connected", JBool true);
                            ("qrCode", JNull);
                            ("message", JStr "WhatsApp is already connected")]))
  else
    qr <- readQr ;;
    if truthy (JStr qr) then
      ret (respond 200 (JObj [("connected", JBool false);
                              ("qrCode", JStr qr);
                              ("message", JStr "Scan this QR code to connect")]))
    else
      ret (respond 200 (JObj [("connected", JBool false);
                              ("qrCode", JNull);
                              ("message", JStr "Generating QR code... Please wait.")])).

Definition failure (text : string) : JsValue :=
  JObj [("success", JBool false); ("error", JStr text)].

(** [app.post('/send', ...)], lines 229-268 ([server.js] 193-232). *)
Definition post_send (req : Body) : M Response :=
  let phone := field "phone" req in
  let message := field "message" req in
  ready <- readReady ;;
  if negb ready then
    ret (respond 400 (failure "WhatsApp is not connected. Please scan QR code first."))
  else if negb (truthy phone) || negb (truthy message) then
    ret (respond 400 (failure "Phone and message are required"))
  else
    tryCatch
      (match phone with
       | JStr s =>
           let chatId := chatId s in
           awaitSendMessage chatId message ;;
           ret (respond 200 (JObj [("success", JBool true);
                                   ("message", JStr "Message sent successfully");
                                   ("to", JStr chatId)]))
       | _ => throw (replaceTypeError phone)
       end)
      (fun error => ret (respond 500 (failure (errorMessage error)))).

(** The loop [for (const phone of recipients) { try { ... } catch (error)
    { ... } }], lines 290-308 ([server.js] 254-272). *)
Fixpoint forRecipients (recipients : list JsValue) (message : JsValue) : M unit :=
  match recipients with
  | [] => ret tt
  | phone :: rest =>
      tryCatch
        (match phone with
         | JStr s =>
             awaitSendMessage (chatId s) message ;;
             pushResult (JObj [("phone", phone); ("success", JBool true)]) ;;
             awaitTimeout 2000
         | _ => throw (replaceTypeError phone)
         end)
        (fun error =>
           pushResult (JObj [("phone", phone); ("success", JBool false);
                             ("error", JStr (errorMessage error))])) ;;
      forRecipients rest message
  end.

(** [results.filter(r => r.success).length] and
    [results.filter(r => !r.success).length]. *)
Definition sent (l : list JsValue) : nat :=
  List.length (filter (fun r => truthy (prop "success" r)) l).

Definition failed (l : list JsValue) : nat :=
  List.length (filter (fun r => negb (truthy (prop "success" r))) l).

(** [app.post('/send-bulk', ...)], lines 271-316 ([server.js] 235-280). *)
Definition post_send_bulk (req : Body) : M Response :=
  let recipients := field "recipients" req in
  let message := field "message" req in
  ready <- readReady ;;
  if negb ready then
    ret (respond 400 (failure "WhatsApp is not connected"))
  else if negb (truthy recipients) || negb (isArray recipients) || negb (truthy message) then
    ret (respond 400 (failure "Recipients array and message are required"))
  else
    writeResults [] ;;
    forRecipients (elements recipients) message ;;
    results <- readResults ;;
    ret (respond 200 (JObj [("success", JBool true);
                            ("results", JArr results);
                            ("sent", numOfNat (sent results));
                            ("failed", numOfNat (failed results))])).

(** [app.post('/logout', ...)], lines 319-328 ([server.js] 283-292). *)
Definition post_logout : M Response :=
  tryCatch
    (awaitLogout ;;
     writeReady false ;;
     writeQr "" ;;
     ret (respond 200 (JObj [("success", JBool true);
                             ("message", JStr "Logged out successfully")])))
    (fun error => ret (respond 500 (failure (errorMessage error)))).

(** ** Observations on runs *)

(** The chat identifiers of the send commands of a log, in order. *)
Definition sendTargets (tr : list Effect) : list string :=
  flat_map (fun e => match e with SendMessage c _ _ => [c] | _ => [] end) tr.

(** The outcomes of the send commands of a log, in order. *)
Definition sendOutcomes (tr : list Effect) : list (option JsError) :=
  flat_map (fun e => match e with SendMessage _ _ o => [o] | _ => [] end) tr.

(** The HTTP status of a run that answered. *)
Definition statusOf (r : Res Response * World) : option nat :=
  match fst r with
  | Normal resp => Some (status resp)
  | Thrown _ => None
  end.

(** ** Phone normalisation, as the specification words it *)

(** [Stripped s d]: [d] is [s] with all its non-digit characters removed. *)
Inductive Stripped : string -> string -> Prop :=
| Stripped_nil : Stripped "" ""
| Stripped_keep c s d :
    isDigit c = true -> Stripped s d -> Stripped (String c s) (String c d)
| Stripped_drop c s d :
    isDigit c = false -> Stripped s d -> Stripped (String c s) d.

(** [Normalised phone out]: strip the non-digits; ten digits that do not
    start with 91 get the prefix 91, every other digit string is left as it
    is. *)
Definition Normalised (phone out : string) : Prop :=
  exists digits,
    Stripped phone digits /\
    ((String.length digits = 10 /\ (forall rest, digits <> "91" ++ rest) /\
      out = "91" ++ digits) \/
     ((String.length digits <> 10 \/ exists rest, digits = "91" ++ rest) /\
      out = digits)).

(** ** The loop of [/send-bulk], one recipient at a time *)

Section BulkLoop.

Variable message : JsValue.

(** What one turn of the loop does for the recipient [phone]: the
    commands it issues and the record it pushes on [results]. *)
Inductive Iteration : JsValue -> list Effect -> JsValue -> Prop :=
| Iteration_sent s :
    Iteration (JStr s)
      [SendMessage (chatId s) message None; SetTimeout 2000]
      (JObj [("phone", JStr s); ("success", JBool true)])
| Iteration_failed s e :
    Iteration (JStr s)
      [SendMessage (chatId s) message (Some e)]
      (JObj [("phone", JStr s); ("success", JBool false);
             ("error", JStr (errorMessage e))])
| Iteration_skipped v :
    (forall s, v <> JStr s) ->
    Iteration v []
      (JObj [("phone", v); ("success", JBool false);
             ("error", JStr (errorMessage (replaceTypeError v)))]).

Inductive Loop : list JsValue -> list Effect -> list JsValue -> Prop :=
| Loop_done : Loop [] [] []
| Loop_turn phone rest tr entry trs entries :
    Iteration phone tr entry ->
    Loop rest trs entries ->
    Loop (phone :: rest) (tr ++ trs)%list (entry :: entries).

End BulkLoop.

(** The recipients the loop tries to send to: the strings among them. *)
Definition attempted (recipients : list JsValue) : list string :=
  flat_map (fun v => match v with JStr s => [chatId s] | _ => [] end) recipients.

(** How a record of [results] reflects the outcome of a send. *)
Definition Marked (o : option JsError) (entry : JsValue) : Prop :=
  match o with
  | None => prop "success" entry = JBool true /\ prop "error" entry = JUndefined
  | Some e =>
      prop "success" entry = JBool false /\
      prop "error" entry = JStr (errorMessage e)
  end.

(** The shape of the log of a loop: a pause of 2000 ms follows each send
    that succeeded, and a send that failed is followed by no pause. *)
Inductive Paced : list Effect -> Prop :=
| Paced_end : Paced []
| Paced_sent c m tr :
    Paced tr -> Paced (SendMessage c m None :: SetTimeout 2000 :: tr)
| Paced_failed c m e tr :
    Paced tr -> Paced (SendMessage c m (Some e) :: tr).

(** The promise of a command resolved. *)
Definition resolved (o : option JsError) : bool :=
  match o with None => true | Some _ => false end.

(** The JSON envelope posted to the relay for [msg] (lines 121-125). *)
Definition relayPayload (msg : Message) : JsValue :=
  JObj [("action", JStr "processMessage");
        ("from", JStr (replaceFirst "@c.us" "" (from msg)));
        ("message", JStr (trim (body msg)))].

(** ** Fixtures *)

Definition connected : World :=
  {| conn := {| isReady := true; qrCodeData := "" |}; history := []; results := [] |}.

Definition idle : World :=
  {| conn := initialState; history := []; results := [] |}.

Definition pairing : World :=
  {| conn := {| isReady := false; qrCodeData := "data:image/png;base64,iVBORw0KGgo=" |};
     history := []; results := [] |}.

(** Collaborators that accept every command; the relay answers with a
    reply. *)
Definition obliging : Env :=
  {| sendMessage := fun _ _ _ => None;
     logout := fun _ => None;
     fetch := fun _ _ _ => Resolves (Json (JObj [("reply", JStr "Welcome")]));
     reply := fun _ _ _ => None;
     toDataURL := fun qr => inr ("data:image/png;base64," ++ qr) |}.

(** A session client whose first send fails, and a relay that is down. *)
Definition failFirst : Env :=
  {| sendMessage := fun h _ _ =>
       match h with [] => Some (MkError "Evaluation failed") | _ => None end;
     logout := fun _ => Some (MkError "Session closed");
     fetch := fun _ _ _ => Rejects (MkError "request timed out");
     reply := fun _ _ _ => None;
     toDataURL := fun qr => inl (MkError "No input text") |}.

Definition sendReq : Body :=
  BodyObject [("phone", JStr "+91-98765-43210"); ("message", JStr "Hello")].

Definition bulkReq : Body :=
  BodyObject [("recipients", JArr [JStr "9876543210"; JStr "9876543211"]);
              ("message", JStr "Hello")].

Definition emptyBulkReq : Body :=
  BodyObject [("recipients", JArr []); ("message", JStr "Hello")].

Definition noMessageReq : Body :=
  BodyObject [("recipients", JArr [JStr "9876543210"])].

Definition inbound : Message :=
  {| from := "919876543210@c.us"; body := " fees? " |}.

(** A session client that rejects the second send of a request: the log
    then holds the first send and its pause. *)
Definition failSecond : Env :=
  {| sendMessage := fun h _ _ =>
       match h with [_; _] => Some (MkError "Evaluation failed") | _ => None end;
     logout := fun _ => None;
     fetch := fun _ _ _ => Resolves (NotJson (MkError "Unexpected token < in JSON"));
     reply := fun _ _ _ => None;
     toDataURL := fun qr => inr ("data:image/png;base64," ++ qr) |}.

Definition threeReq : Body :=
  BodyObject [("recipients", JArr (map JStr ["9876543210"; "9876543211"; "9876543212"]));
              ("message", JStr "Hello")].

(** ** Properties of logs and of relay answers *)

(** Between two consecutive sends of a log there is a pause of 2000 ms. *)
Definition PauseBetweenSends (tr : list Effect) : Prop :=
  forall pre c m o mid c' m' o' post,
    tr = (pre ++ SendMessage c m o :: mid ++ SendMessage c' m' o' :: post)%list ->
    sendTargets mid = [] ->
    In (SetTimeout 2000) mid.

(** The relay answered with well-formed JSON whose [reply] field is [v],
    and [v] is not empty. *)
Definition CarriesReply (o : FetchResult) (v : JsValue) : Prop :=
  exists props,
    o = Resolves (Json (JObj props)) /\
    lookupProp "reply" props = v /\
    truthy v = true.

(** ** The remaining routes, and the server as a whole *)

(** [app.get('/health', ...)], lines 160-166 ([server.js] 156-162);
    [timestamp] is what [new Date().toISOString()] returns at the call. *)
Definition get_health (timestamp : string) : M Response :=
  ready <- readReady ;;
  ret (respond 200 (JObj [("status", JStr "ok");
                          ("whatsapp", JBool ready);
                          ("timestamp", JStr timestamp)])).

(** [app.get('/status', ...)], lines 169-175 ([server.js] 165-171). *)
Definition get_status (timestamp : string) : M Response :=
  ready <- readReady ;;
  qr <- readQr ;;
  ret (respond 200 (JObj [("connected", JBool ready);
                          ("qrAvailable", JBool (truthy (JStr qr)));
                          ("timestamp", JStr timestamp)])).

(** [app.get('/info', ...)], lines 331-352 ([server.js] 295-316);
    [clientInfo] is the value of the property [client.info] at the call.
    The object literal reads [info.pushname], [info.wid._serialized] and
    [info.platform] in this order; none of these keys is supplied by a
    prototype. *)
Definition get_info (clientInfo : JsValue) : M Response :=
  ready <- readReady ;;
  if negb ready then
    ret (respond 400 (failure "WhatsApp is not connected"))
  else
    tryCatch
      (let info := clientInfo in
       pushname <- getProp "pushname" info ;;
       wid <- getProp "wid" info ;;
       serialized <- getProp "_serialized" wid ;;
       platform <- getProp "platform" info ;;
       ret (respond 200 (JObj [("success", JBool true);
                               ("info", JObj [("pushname", pushname);
                                              ("wid", serialized);
                                              ("platform", platform)])])))
      (fun error => ret (respond 500 (failure (errorMessage error)))).

(** [v] is [null] or [undefined]. *)
Definition nullish (v : JsValue) : bool :=
  match v with
  | JUndefined | JNull => true
  | _ => false
  end.

(** A request to one of the JSON routes, with what the handler reads from
    outside the program at the call. *)
Inductive Request : Type :=
| GetHealth (timestamp : string)
| GetStatus (timestamp : string)
| GetQr
| GetInfo (clientInfo : JsValue)
| PostSend (req : Body)
| PostSendBulk (req : Body)
| PostLogout.

Definition route (r : Request) : M Response :=
  match r with
  | GetHealth timestamp => get_health timestamp
  | GetStatus timestamp => get_status timestamp
  | GetQr => get_qr
  | GetInfo clientInfo => get_info clientInfo
  | PostSend req => post_send req
  | PostSendBulk req => post_send_bulk req
  | PostLogout => post_logout
  end.

(** What reaches the server: an event of the session client or a request. *)
Inductive Input : Type :=
| Emitted (ev : ClientEvent)
| Received (r : Request).

(** One input handled to its end; the responses it produced. *)
Definition react (i : Input) : M (list Response) :=
  match i with
  | Emitted ev => dispatch ev ;; ret []
  | Received r => resp <- route r ;; ret [resp]
  end.

(** Inputs handled one after the other, each to its end before the next. *)
Fixpoint serve (inputs : list Input) : M (list Response) :=
  match inputs with
  | [] => ret []
  | i :: rest =>
      first <- react i ;;
      others <- serve rest ;;
      ret (first ++ others)%list
  end.

(** The inputs that write the connection state. *)
Definition writesState (i : Input) : bool :=
  match i with
  | Emitted (EvQr _) | Emitted EvReady
  | Emitted (EvAuthFailure _) | Emitted (EvDisconnected _)
  | Received PostLogout => true
  | _ => false
  end.

Definition isReadyEvent (i : Input) : bool :=
  match i with
  | Emitted EvReady => true
  | _ => false
  end.


(** [c] does not occur in [s]. *)
Fixpoint lacksChar (c : ascii) (s : string) : bool :=
  match s with
  | EmptyString => true
  | String x rest => negb (Ascii.eqb x c) && lacksChar c rest
  end.

(** [pat] occurs in [s]. *)
Definition Occurs (pat s : string) : Prop :=
  exists before after, s = before ++ pat ++ after.


Definition numericPhoneReq : Body :=
  BodyObject [("phone", JNum (9876543210 # 1)); ("message", JStr "Hello")].

Definition noDigitsReq : Body :=
  BodyObject [("phone", JStr "n/a"); ("message", JStr "Hello")].

Definition clientInfoSample : JsValue :=
  JObj [("pushname", JStr "KRP Academy");
        ("wid", JObj [("server", JStr "c.us"); ("user", JStr "919876543210");
                      ("_serialized", JStr "919876543210@c.us")]);
        ("platform", JStr "android")].

Definition noPhoneReq : Body :=
  BodyObject [("message", JStr "Hello")].

(** A white-space character has at least one byte. *)
Definition nonEmpty (w : list nat) : Prop := w <> [].

(** The statuses the handlers answer with. *)
Definition answered (resp : Response) : Prop :=
  status resp = 200 \/ status resp = 400 \/ status resp = 500.

Definition isRequest (i : Input) : bool :=
  match i with
  | Received _ => true
  | Emitted _ => false
  end.

(** Inputs that only read the connection state. *)
Definition readingInputs : list Input :=
  [Emitted (EvMessage inbound);
   Received (PostSend sendReq);
   Received (GetStatus "2025-01-01T00:00:00.000Z");
   Emitted EvAuthenticated;
   Received (PostSendBulk bulkReq);
   Received (GetInfo clientInfoSample);
   Received GetQr].


(** ** Normalisation meets its specification *)

Lemma stripNonDigits_Stripped (s : string) : Stripped s (stripNonDigits s).
Proof.
  induction s as [|c s IH]; simpl.
  - constructor.
  - destruct (isDigit c) eqn:E; now constructor.
Qed.

Lemma Stripped_functional (s d : string) :
  Stripped s d -> d = stripNonDigits s.
Proof.
  induction 1 as [|c s d Hc _ IH|c s d Hc _ IH]; simpl.
  - reflexivity.
  - now rewrite Hc, IH.
  - now rewrite Hc.
Qed.

Lemma startsWith_91 (d : string) :
  startsWith "91" d = true <-> exists rest, d = "91" ++ rest.
Proof.
  unfold startsWith. rewrite String.prefix_correct. split.
  - destruct d as [|a [|b rest]]; simpl; try discriminate.
    intros H. injection H as -> -> _. now exists rest.
  - intros [rest ->]. simpl. now destruct rest.
Qed.

Lemma phoneNumber_Normalised (phone : string) :
  Normalised phone (phoneNumber phone).
Proof.
  exists (stripNonDigits phone). split; [apply stripNonDigits_Stripped|].
  unfold phoneNumber.
  destruct (startsWith "91" (stripNonDigits phone)) eqn:Ep; simpl.
  - right. split; [|reflexivity]. right. now apply startsWith_91.
  - destruct (Nat.eqb_spec (String.length (stripNonDigits phone)) 10) as [El|El].
    + left. split; [exact El|]. split; [|reflexivity].
      intros rest Hr.
      assert (H : startsWith "91" (stripNonDigits phone) = true)
        by (apply startsWith_91; now exists rest).
      congruence.
    + right. split; [now left | reflexivity].
Qed.

(** The relation determines the result: whatever is [Normalised] from
    [phone] is what the code computes. *)
Lemma Normalised_functional (phone out : string) :
  Normalised phone out -> out = phoneNumber phone.
Proof.
  intros [digits [Hs Hc]].
  apply Stripped_functional in Hs. subst digits. unfold phoneNumber.
  destruct Hc as [[Hl [Hp ->]]|[Hc ->]].
  - rewrite Hl. simpl.
    destruct (startsWith "91" (stripNonDigits phone)) eqn:Ep; [|reflexivity].
    apply startsWith_91 in Ep. destruct Ep as [rest Hr]. now elim (Hp rest).
  - destruct Hc as [Hl|Hp].
    + apply Nat.eqb_neq in Hl. rewrite Hl. now rewrite andb_false_r.
    + apply startsWith_91 in Hp. now rewrite Hp.
Qed.

(** The string operations on sample inputs. *)
Example phoneNumber_samples :
  phoneNumber "9198765432" = "9198765432" /\
  phoneNumber "09876543210" = "09876543210" /\
  phoneNumber "(987) 654-3210 ext" = "919876543210" /\
  phoneNumber "abc" = "".
Proof. repeat split. Qed.

Example replaceFirst_samples :
  replaceFirst "@c.us" "" "919876543210@c.us" = "919876543210" /\
  replaceFirst "@c.us" "" "1203@g.us" = "1203@g.us" /\
  replaceFirst "@c.us" "" "a@c.us@c.us" = "a@c.us".
Proof. repeat split. Qed.

Example trim_samples :
  trim "  fees? " = "fees?" /\
  trim (String (ascii_of_nat 9) "a b" ++ String (ascii_of_nat 10) "") = "a b" /\
  trim (ofBytes [194; 160; 104; 105; 226; 128; 169]) = "hi" /\
  trim "   " = "".
Proof. vm_compute. repeat split. Qed.

(** ** Session callbacks *)

(** X11. The [qr] callback stores the encoded image and leaves the ready
    flag as it is; when the encoding fails the error is swallowed and
    nothing changes; [authenticated] changes nothing; [auth_failure] clears
    the ready flag and keeps the image. *)
Lemma callbacks_on_state (env : Env) (w : World) :
  (forall qr image, toDataURL env qr = inr image ->
     conn (snd (dispatch (EvQr qr) env w)) =
       {| isReady := isReady (conn w); qrCodeData := image |}) /\
  (forall qr err, toDataURL env qr = inl err ->
     snd (dispatch (EvQr qr) env w) = w) /\
  snd (dispatch EvAuthenticated env w) = w /\
  (forall msg,
     conn (snd (dispatch (EvAuthFailure msg) env w)) =
       {| isReady := false; qrCodeData := qrCodeData (conn w) |}).
Proof.
  split; [|split; [|split]].
  - intros qr image H. cbn. unfold on_qr, tryCatch. now rewrite H.
  - intros qr err H. cbn. unfold on_qr, tryCatch. now rewrite H.
  - reflexivity.
  - reflexivity.
Qed.

(** ** The loop and its relation *)

Section LoopRuns.

Variable message : JsValue.

Lemma forRecipients_Loop (recipients : list JsValue) :
  forall env w, exists tr entries,
    Loop message recipients tr entries /\
    forRecipients recipients message env w =
      (Normal tt,
       {| conn := conn w;
          history := (history w ++ tr)%list;
          results := (results w ++ entries)%list |}).
Proof.
  induction recipients as [|phone rest IH]; intros env w.
  - exists [], []. split; [constructor|].
    cbn. rewrite !app_nil_r. now destruct w.
  - cbn [forRecipients]. unfold bind at 1. unfold tryCatch.
    destruct phone as [| |b|q|s|items|props].
    5:{ unfold bind, awaitSendMessage, settle.
        destruct (sendMessage env (history w) (chatId s) message) as [e|] eqn:Es.
        - cbn.
          match goal with |- context [forRecipients _ _ _ ?w1] =>
            destruct (IH env w1) as (tr & entries & HL & ->) end.
          cbn.
          eexists (_ :: tr), (_ :: entries). split.
          + apply (Loop_turn message (JStr s) rest _ _ tr entries (Iteration_failed message s e) HL).
          + cbn. now rewrite <- !app_assoc.
        - cbn.
          match goal with |- context [forRecipients _ _ _ ?w1] =>
            destruct (IH env w1) as (tr & entries & HL & ->) end.
          cbn.
          eexists (_ :: _ :: tr), (_ :: entries). split.
          + apply (Loop_turn message (JStr s) rest _ _ tr entries (Iteration_sent message s) HL).
          + cbn. now rewrite <- !app_assoc. }
    all: cbn;
      match goal with |- context [forRecipients _ _ _ ?w1] =>
        destruct (IH env w1) as (tr & entries & HL & ->) end;
      cbn; eexists tr, (_ :: entries); (split;
        [ refine (Loop_turn message _ rest [] _ tr entries (Iteration_skipped message _ _) HL);
          intros s; discriminate
        | cbn; now rewrite <- !app_assoc ]).
Qed.

End LoopRuns.

Lemma attempted_strings (phones : list string) :
  attempted (map JStr phones) = map chatId phones.
Proof.
  induction phones as [|p phones IH]; cbn; [reflexivity|].
  now rewrite <- IH.
Qed.

Lemma sendTargets_app (a b : list Effect) :
  sendTargets (a ++ b) = (sendTargets a ++ sendTargets b)%list.
Proof. apply flat_map_app. Qed.

Lemma sent_failed_length (l : list JsValue) :
  sent l + failed l = List.length l.
Proof.
  unfold sent, failed.
  induction l as [|r l IH]; cbn; [reflexivity|].
  destruct (truthy (prop "success" r)); cbn; lia.
Qed.

Section LoopFacts.

Variable message : JsValue.

Lemma Loop_phones recipients tr entries :
  Loop message recipients tr entries ->
  map (prop "phone") entries = recipients.
Proof.
  induction 1 as [|phone rest tr entry trs entries Hi _ IH]; cbn.
  - reflexivity.
  - rewrite IH. now destruct Hi.
Qed.

Lemma Loop_length recipients tr entries :
  Loop message recipients tr entries ->
  List.length entries = List.length recipients.
Proof.
  intros H. apply Loop_phones in H. rewrite <- H. now rewrite length_map.
Qed.

Lemma Loop_targets recipients tr entries :
  Loop message recipients tr entries ->
  sendTargets tr = attempted recipients.
Proof.
  induction 1 as [|phone rest tr entry trs entries Hi _ IH]; cbn.
  - reflexivity.
  - rewrite sendTargets_app, IH. f_equal.
    destruct Hi as [s|s e|v Hv]; cbn; try reflexivity.
    destruct v; try reflexivity. now elim (Hv s).
Qed.

Lemma Loop_marked phones tr entries :
  Loop message (map JStr phones) tr entries ->
  Forall2 Marked (sendOutcomes tr) entries.
Proof.
  revert tr entries.
  induction phones as [|p phones IH]; intros tr entries H; inversion H; subst.
  - constructor.
  - match goal with Hi : Iteration _ _ _ _ |- _ => inversion Hi; subst end.
    + cbn. constructor; [now split | now apply IH].
    + cbn. constructor; [now split | now apply IH].
    + match goal with Hv : forall s, JStr p <> JStr s |- _ => now elim (Hv p) end.
Qed.

Lemma Loop_Paced recipients tr entries :
  Loop message recipients tr entries -> Paced tr.
Proof.
  induction 1 as [|phone rest tr entry trs entries Hi _ IH].
  - constructor.
  - destruct Hi; cbn; try now constructor. exact IH.
Qed.

End LoopFacts.

(** [/send-bulk] on a connected session with a body that passes the
    validation of line 281. *)
Lemma post_send_bulk_run (env : Env) (w : World) (req : Body)
    (recipients : list JsValue) :
  isReady (conn w) = true ->
  field "recipients" req = JArr recipients ->
  truthy (field "message" req) = true ->
  exists tr entries,
    Loop (field "message" req) recipients tr entries /\
    post_send_bulk req env w =
      (Normal (respond 200 (JObj [("success", JBool true);
                                  ("results", JArr entries);
                                  ("sent", numOfNat (sent entries));
                                  ("failed", numOfNat (failed entries))])),
       {| conn := conn w;
          history := (history w ++ tr)%list;
          results := entries |}).
Proof.
  intros Hr Hrec Hm.
  unfold post_send_bulk. rewrite Hrec, Hm.
  unfold bind at 1. unfold readReady. rewrite Hr. cbn [negb truthy isArray orb elements].
  unfold bind at 1. unfold writeResults.
  unfold bind at 1.
  match goal with |- context [forRecipients _ _ _ ?w1] =>
    destruct (forRecipients_Loop (field "message" req) recipients env w1)
      as (tr & entries & HL & ->) end.
  exists tr, entries. split; [exact HL|]. reflexivity.
Qed.

(** ** Single sends *)

(** [/send], branch by branch. *)
Lemma post_send_cases (env : Env) (w : World) (req : Body) :
  post_send req env w =
    if negb (isReady (conn w)) then
      (Normal (respond 400
                 (failure "WhatsApp is not connected. Please scan QR code first.")), w)
    else if negb (truthy (field "phone" req)) || negb (truthy (field "message" req)) then
      (Normal (respond 400 (failure "Phone and message are required")), w)
    else
      match field "phone" req with
      | JStr s =>
          let o := sendMessage env (history w) (chatId s) (field "message" req) in
          (Normal match o with
                  | None => respond 200 (JObj [("success", JBool true);
                                               ("message", JStr "Message sent successfully");
                                               ("to", JStr (chatId s))])
                  | Some e => respond 500 (failure (errorMessage e))
                  end,
           issue (SendMessage (chatId s) (field "message" req) o) w)
      | v => (Normal (respond 500 (failure (errorMessage (replaceTypeError v)))), w)
      end.
Proof.
  unfold post_send. unfold bind at 1. unfold readReady.
  destruct (isReady (conn w)); cbn [negb]; [|reflexivity].
  destruct (negb (truthy (field "phone" req)) || negb (truthy (field "message" req)));
    [reflexivity|].
  unfold tryCatch.
  destruct (field "phone" req) as [| |b|q|s|items|props]; try reflexivity.
  unfold bind, awaitSendMessage, settle. cbn zeta.
  now destruct (sendMessage env (history w) (chatId s) (field "message" req)).
Qed.

(** C1. Phone normalisation is the same computation in [/send] and in
    [/send-bulk]: the non-digit characters of the phone string are
    removed; a result of exactly ten digits that does not start with 91
    gets 91 in front, any other result is kept as it is.  So 9876543210
    becomes 919876543210, 919876543210 stays, and +91-98765-43210 becomes
    919876543210; and the send commands of both routes go to the numbers so
    normalised. *)
Theorem phone_normalisation :
  (forall phone,
      Normalised phone (phoneNumber phone) /\
      forall out, Normalised phone out -> out = phoneNumber phone) /\
  phoneNumber "9876543210" = "919876543210" /\
  phoneNumber "919876543210" = "919876543210" /\
  phoneNumber "+91-98765-43210" = "919876543210" /\
  (forall env w req phone,
      isReady (conn w) = true ->
      field "phone" req = JStr phone ->
      truthy (JStr phone) = true ->
      truthy (field "message" req) = true ->
      sendTargets (history (snd (post_send req env w))) =
        (sendTargets (history w) ++ [chatId phone])%list) /\
  (forall env w req phones,
      isReady (conn w) = true ->
      field "recipients" req = JArr (map JStr phones) ->
      truthy (field "message" req) = true ->
      sendTargets (history (snd (post_send_bulk req env w))) =
        (sendTargets (history w) ++
         map chatId phones)%list).
Proof.
  split; [|split; [|split; [|split; [|split]]]]; try reflexivity.
  - intros phone. split.
    + apply phoneNumber_Normalised.
    + apply Normalised_functional.
  - intros env w req phone Hr Hp Ht Hm.
    rewrite post_send_cases, Hr, Hp, Ht, Hm.
    cbn. now rewrite sendTargets_app.
  - intros env w req phones Hr Hrec Hm.
    destruct (post_send_bulk_run env w req _ Hr Hrec Hm) as (tr & entries & HL & ->).
    cbn. rewrite sendTargets_app. f_equal.
    rewrite (Loop_targets _ _ _ _ HL). apply attempted_strings.
Qed.

Lemma phone_normalisation_witness :
  isReady (conn connected) = true /\
  field "recipients" bulkReq = JArr (map JStr ["9876543210"; "9876543211"]) /\
  truthy (field "message" bulkReq) = true /\
  sendTargets (history (snd (post_send_bulk bulkReq failFirst connected))) =
    (sendTargets (history connected) ++
     map chatId ["9876543210"; "9876543211"])%list.
Proof.
  split; [reflexivity|]. split; [reflexivity|]. split; [reflexivity|].
  apply (proj2 (proj2 (proj2 (proj2 (proj2 phone_normalisation))))
           failFirst connected bulkReq ["9876543210"; "9876543211"]);
    reflexivity.
Defined.

(** C3. While the session is not ready, [/send] answers 400 whatever the
    body of the request is, and issues no command: the log of commands, and
    with it the whole state, is as before. *)
Theorem send_refused_when_not_ready (env : Env) (w : World) (req : Body) :
  isReady (conn w) = false ->
  statusOf (post_send req env w) = Some 400 /\
  history (snd (post_send req env w)) = history w /\
  snd (post_send req env w) = w.
Proof.
  intros Hr. rewrite post_send_cases, Hr. cbn. auto.
Qed.

Lemma send_refused_when_not_ready_witness :
  isReady (conn pairing) = false /\
  statusOf (post_send sendReq obliging pairing) = Some 400 /\
  history (snd (post_send sendReq obliging pairing)) = history pairing /\
  snd (post_send sendReq obliging pairing) = pairing.
Proof.
  split; [reflexivity|].
  apply (send_refused_when_not_ready obliging pairing sendReq). reflexivity.
Defined.

(** C7. [/qr] always answers, and the answer is fixed by the connection
    state, the ready flag first: connected with no image when ready,
    whatever image is stored; not connected with the stored image when not
    ready and an image is stored; not connected with no image otherwise.
    It issues no command and leaves the state alone. *)
Theorem qr_reflects_state (env : Env) (w : World) :
  exists payload,
    get_qr env w = (Normal (respond 200 payload), w) /\
    (isReady (conn w) = true ->
       prop "connected" payload = JBool true /\ prop "qrCode" payload = JNull) /\
    (isReady (conn w) = false -> qrCodeData (conn w) <> "" ->
       prop "connected" payload = JBool false /\
       prop "qrCode" payload = JStr (qrCodeData (conn w))) /\
    (isReady (conn w) = false -> qrCodeData (conn w) = "" ->
       prop "connected" payload = JBool false /\ prop "qrCode" payload = JNull).
Proof.
  unfold get_qr, bind, readReady, readQr.
  destruct (isReady (conn w)) eqn:Er.
  - eexists. split; [reflexivity|]. cbn. repeat split; discriminate.
  - cbn [truthy]. destruct (String.eqb_spec (qrCodeData (conn w)) "") as [Eq|Eq].
    + eexists. split; [reflexivity|]. cbn. repeat split; try discriminate.
      all: intros; congruence.
    + eexists. split; [reflexivity|]. cbn. repeat split; try discriminate.
      all: intros; congruence.
Qed.

Lemma qr_reflects_state_witness :
  isReady (conn pairing) = false /\
  qrCodeData (conn pairing) <> "" /\
  exists payload,
    get_qr obliging pairing = (Normal (respond 200 payload), pairing) /\
    prop "connected" payload = JBool false /\
    prop "qrCode" payload = JStr (qrCodeData (conn pairing)).
Proof.
  split; [reflexivity|]. split; [discriminate|].
  destruct (qr_reflects_state obliging pairing) as (payload & Hrun & _ & Himg & _).
  exists payload. split; [exact Hrun|].
  apply Himg; [reflexivity | discriminate].
Defined.

(** C8. The pairing image is cleared when the session becomes ready and
    when it disconnects: right after the [ready] event the state is ready
    with no image, right after the [disconnected] event it is not ready with
    no image, whatever the state was before. *)
Theorem image_cleared_on_ready_and_disconnect (env : Env) (w : World) :
  (fst (dispatch EvReady env w) = Normal tt /\
   conn (snd (dispatch EvReady env w)) = {| isReady := true; qrCodeData := "" |}) /\
  (forall reason,
     fst (dispatch (EvDisconnected reason) env w) = Normal tt /\
     conn (snd (dispatch (EvDisconnected reason) env w)) =
       {| isReady := false; qrCodeData := "" |}).
Proof.
  split; [|intros reason]; split; reflexivity.
Qed.

Lemma length_append (s t : string) :
  String.length (s ++ t) = String.length s + String.length t.
Proof. induction s as [|c s IH]; cbn; [reflexivity | now rewrite IH]. Qed.

(** C10. When [/send] succeeds, the [to] field of its answer is the chat
    identifier that was handed to the send command: the normalised number
    followed by [@c.us], and so not the bare number. *)
Theorem send_answers_with_chat_id (env : Env) (w : World) (req : Body) :
  statusOf (post_send req env w) = Some 200 ->
  exists phone resp,
    field "phone" req = JStr phone /\
    fst (post_send req env w) = Normal resp /\
    prop "to" (json resp) = JStr (chatId phone) /\
    history (snd (post_send req env w)) =
      (history w ++ [SendMessage (chatId phone) (field "message" req) None])%list /\
    chatId phone = phoneNumber phone ++ "@c.us" /\
    chatId phone <> phoneNumber phone.
Proof.
  intros Hs.
  assert (Hsuffix : forall s, s ++ "@c.us" <> s).
  { intros s E. apply (f_equal String.length) in E.
    rewrite length_append in E. cbn in E. lia. }
  rewrite post_send_cases in *.
  destruct (negb (isReady (conn w))); [discriminate|].
  destruct (negb (truthy (field "phone" req)) || negb (truthy (field "message" req)));
    [discriminate|].
  destruct (field "phone" req) as [| |b|q|s|items|props]; try discriminate.
  exists s. cbn zeta in *.
  destruct (sendMessage env (history w) (chatId s) (field "message" req));
    [discriminate|].
  eexists. split; [reflexivity|]. split; [reflexivity|]. split; [reflexivity|].
  split; [reflexivity|]. split; [reflexivity|]. apply Hsuffix.
Qed.

Lemma send_answers_with_chat_id_witness :
  statusOf (post_send sendReq obliging connected) = Some 200 /\
  exists phone resp,
    field "phone" sendReq = JStr phone /\
    fst (post_send sendReq obliging connected) = Normal resp /\
    prop "to" (json resp) = JStr (chatId phone) /\
    history (snd (post_send sendReq obliging connected)) =
      (history connected ++
       [SendMessage (chatId phone) (field "message" sendReq) None])%list /\
    chatId phone = phoneNumber phone ++ "@c.us" /\
    chatId phone <> phoneNumber phone.
Proof.
  split; [reflexivity|].
  apply (send_answers_with_chat_id obliging connected sendReq). reflexivity.
Defined.

(** ** Bulk sends *)

Lemma Marked_sent (outcomes : list (option JsError)) (entries : list JsValue) :
  Forall2 Marked outcomes entries ->
  sent entries = List.length (filter resolved outcomes).
Proof.
  unfold sent.
  induction 1 as [|o entry outcomes entries Hm _ IH]; cbn; [reflexivity|].
  destruct o as [e|]; cbn in Hm; destruct Hm as [-> _]; cbn; now rewrite IH.
Qed.

(** C2. A connected [/send-bulk] with a message and a list of phone
    strings answers 200 after trying every recipient in turn: one send
    command per recipient, in the order of the list, whatever the outcome of
    the earlier ones; [results] has one record per recipient in the same
    order, marked successful when its send resolved and failed, with the
    text of the error, when it was rejected; and [sent] and [failed] add up
    to the number of recipients. *)
Theorem bulk_attempts_every_recipient
    (env : Env) (w : World) (req : Body) (phones : list string) :
  isReady (conn w) = true ->
  field "recipients" req = JArr (map JStr phones) ->
  truthy (field "message" req) = true ->
  exists tr entries,
    post_send_bulk req env w =
      (Normal (respond 200 (JObj [("success", JBool true);
                                  ("results", JArr entries);
                                  ("sent", numOfNat (sent entries));
                                  ("failed", numOfNat (failed entries))])),
       {| conn := conn w;
          history := (history w ++ tr)%list;
          results := entries |}) /\
    sendTargets tr = map chatId phones /\
    map (prop "phone") entries = map JStr phones /\
    Forall2 Marked (sendOutcomes tr) entries /\
    sent entries = List.length (filter resolved (sendOutcomes tr)) /\
    sent entries + failed entries = List.length phones.
Proof.
  intros Hr Hrec Hm.
  destruct (post_send_bulk_run env w req _ Hr Hrec Hm) as (tr & entries & HL & Hrun).
  exists tr, entries.
  assert (HM : Forall2 Marked (sendOutcomes tr) entries)
    by exact (Loop_marked _ _ _ _ HL).
  split; [exact Hrun|].
  split; [rewrite (Loop_targets _ _ _ _ HL); apply attempted_strings|].
  split; [exact (Loop_phones _ _ _ _ HL)|].
  split; [exact HM|].
  split; [exact (Marked_sent _ _ HM)|].
  rewrite sent_failed_length, (Loop_length _ _ _ _ HL). apply length_map.
Qed.


Lemma bulk_attempts_every_recipient_witness :
  isReady (conn connected) = true /\
  field "recipients" threeReq =
    JArr (map JStr ["9876543210"; "9876543211"; "9876543212"]) /\
  truthy (field "message" threeReq) = true /\
  exists tr entries,
    post_send_bulk threeReq failSecond connected =
      (Normal (respond 200 (JObj [("success", JBool true);
                                  ("results", JArr entries);
                                  ("sent", numOfNat (sent entries));
                                  ("failed", numOfNat (failed entries))])),
       {| conn := conn connected;
          history := (history connected ++ tr)%list;
          results := entries |}) /\
    sendTargets tr = map chatId ["9876543210"; "9876543211"; "9876543212"] /\
    map (prop "phone") entries =
      map JStr ["9876543210"; "9876543211"; "9876543212"] /\
    Forall2 Marked (sendOutcomes tr) entries /\
    sent entries = List.length (filter resolved (sendOutcomes tr)) /\
    sent entries + failed entries = 3.
Proof.
  split; [reflexivity|]. split; [reflexivity|]. split; [reflexivity|].
  apply (bulk_attempts_every_recipient failSecond connected threeReq
           ["9876543210"; "9876543211"; "9876543212"]); reflexivity.
Defined.

(** The run of the specification's example: of three recipients the second
    fails, the third is still tried, and the counts are 2 and 1. *)
Example bulk_second_of_three_fails :
  post_send_bulk threeReq failSecond connected =
    (Normal (respond 200 (JObj [
       ("success", JBool true);
       ("results", JArr [
          JObj [("phone", JStr "9876543210"); ("success", JBool true)];
          JObj [("phone", JStr "9876543211"); ("success", JBool false);
                ("error", JStr "Evaluation failed")];
          JObj [("phone", JStr "9876543212"); ("success", JBool true)]]);
       ("sent", numOfNat 2);
       ("failed", numOfNat 1)])),
     {| conn := conn connected;
        history := [SendMessage "919876543210@c.us" (JStr "Hello") None;
                    SetTimeout 2000;
                    SendMessage "919876543211@c.us" (JStr "Hello")
                      (Some (MkError "Evaluation failed"));
                    SendMessage "919876543212@c.us" (JStr "Hello") None;
                    SetTimeout 2000];
        results := [
          JObj [("phone", JStr "9876543210"); ("success", JBool true)];
          JObj [("phone", JStr "9876543211"); ("success", JBool false);
                ("error", JStr "Evaluation failed")];
          JObj [("phone", JStr "9876543212"); ("success", JBool true)]] |}).
Proof. vm_compute. reflexivity. Qed.

(** C6, as the code has it. On a connected session [/send-bulk] answers
    400 exactly when the message is missing (or falsy) or [recipients] is
    not an array, and then issues no command; an empty array of recipients
    with a message is accepted: the answer is 200 with no results, zero sent
    and zero failed, and no command is issued either. *)
Theorem bulk_validation (env : Env) (w : World) (req : Body) :
  isReady (conn w) = true ->
  (truthy (field "message" req) = false \/ isArray (field "recipients" req) = false ->
     post_send_bulk req env w =
       (Normal (respond 400 (failure "Recipients array and message are required")), w)) /\
  (statusOf (post_send_bulk req env w) = Some 400 ->
     truthy (field "message" req) = false \/ isArray (field "recipients" req) = false) /\
  (field "recipients" req = JArr [] ->
   truthy (field "message" req) = true ->
     post_send_bulk req env w =
       (Normal (respond 200 (JObj [("success", JBool true);
                                   ("results", JArr []);
                                   ("sent", numOfNat 0);
                                   ("failed", numOfNat 0)])),
        {| conn := conn w; history := history w; results := [] |})).
Proof.
  intros Hr. split; [|split].
  - intros H. unfold post_send_bulk. unfold bind at 1. unfold readReady.
    rewrite Hr. cbn [negb].
    destruct H as [H|H]; rewrite H; cbn [negb orb]; [|now rewrite orb_true_r].
    now rewrite orb_true_r.
  - intros Hs.
    destruct (truthy (field "message" req)) eqn:Hm; [|now left]. right.
    destruct (field "recipients" req) as [| |b|q|s|items|props] eqn:Hrec;
      try reflexivity.
    destruct (post_send_bulk_run env w req items Hr Hrec Hm) as (tr & entries & _ & Hrun).
    rewrite Hrun in Hs. discriminate.
  - intros Hrec Hm. unfold post_send_bulk. rewrite Hrec, Hm.
    unfold bind at 1. unfold readReady. rewrite Hr. reflexivity.
Qed.

Lemma bulk_validation_witness :
  isReady (conn connected) = true /\
  (truthy (field "message" noMessageReq) = false \/
   isArray (field "recipients" noMessageReq) = false) /\
  post_send_bulk noMessageReq obliging connected =
    (Normal (respond 400 (failure "Recipients array and message are required")),
     connected) /\
  field "recipients" emptyBulkReq = JArr [] /\
  truthy (field "message" emptyBulkReq) = true /\
  post_send_bulk emptyBulkReq obliging connected =
    (Normal (respond 200 (JObj [("success", JBool true);
                                ("results", JArr []);
                                ("sent", numOfNat 0);
                                ("failed", numOfNat 0)])),
     {| conn := conn connected; history := history connected; results := [] |}).
Proof.
  split; [reflexivity|]. split; [left; reflexivity|].
  split.
  - apply (proj1 (bulk_validation obliging connected noMessageReq eq_refl)).
    left. reflexivity.
  - split; [reflexivity|]. split; [reflexivity|].
    apply (proj2 (proj2 (bulk_validation obliging connected emptyBulkReq eq_refl)));
      reflexivity.
Defined.

(** C6 as worded fails: a connected [/send-bulk] whose [recipients] is the
    empty list, with a message, is answered 200, not 400. *)
Lemma bulk_empty_list_accepted :
  isReady (conn connected) = true /\
  field "recipients" emptyBulkReq = JArr [] /\
  statusOf (post_send_bulk emptyBulkReq obliging connected) = Some 200 /\
  statusOf (post_send_bulk emptyBulkReq obliging connected) <> Some 400.
Proof.
  split; [reflexivity|]. split; [reflexivity|]. split; [reflexivity|].
  cbn. discriminate.
Qed.

(** C9, as the code has it. In the log of a connected [/send-bulk] a pause
    of 2000 ms follows every send that succeeded, the last one included, and
    nothing else: after a send that failed the loop goes on to the next
    recipient without a pause. *)
Theorem bulk_pauses_after_successful_sends
    (env : Env) (w : World) (req : Body) (recipients : list JsValue) :
  isReady (conn w) = true ->
  field "recipients" req = JArr recipients ->
  truthy (field "message" req) = true ->
  exists tr,
    history (snd (post_send_bulk req env w)) = (history w ++ tr)%list /\
    Paced tr.
Proof.
  intros Hr Hrec Hm.
  destruct (post_send_bulk_run env w req _ Hr Hrec Hm) as (tr & entries & HL & Hrun).
  exists tr. rewrite Hrun. split; [reflexivity|].
  exact (Loop_Paced _ _ _ _ HL).
Qed.

Lemma bulk_pauses_after_successful_sends_witness :
  isReady (conn connected) = true /\
  field "recipients" bulkReq = JArr [JStr "9876543210"; JStr "9876543211"] /\
  truthy (field "message" bulkReq) = true /\
  exists tr,
    history (snd (post_send_bulk bulkReq failFirst connected)) =
      (history connected ++ tr)%list /\
    Paced tr.
Proof.
  split; [reflexivity|]. split; [reflexivity|]. split; [reflexivity|].
  apply (bulk_pauses_after_successful_sends failFirst connected bulkReq
           [JStr "9876543210"; JStr "9876543211"]); reflexivity.
Defined.

(** C9 as worded fails: when the first of two sends is rejected, the
    second follows it with no pause in between. *)
Lemma bulk_no_pause_after_failed_send :
  history (snd (post_send_bulk bulkReq failFirst connected)) =
    [SendMessage "919876543210@c.us" (JStr "Hello") (Some (MkError "Evaluation failed"));
     SendMessage "919876543211@c.us" (JStr "Hello") None;
     SetTimeout 2000] /\
  ~ PauseBetweenSends (history (snd (post_send_bulk bulkReq failFirst connected))).
Proof.
  split; [vm_compute; reflexivity|].
  intros H.
  exact (H [] "919876543210@c.us" (JStr "Hello") (Some (MkError "Evaluation failed"))
           [] "919876543211@c.us" (JStr "Hello") None [SetTimeout 2000]
           eq_refl eq_refl).
Qed.

(** ** Logout *)

(** C5, as the code has it. [/logout] does not look at the ready flag: it
    always issues the logout command; when the command resolves the answer
    is 200 and the state is cleared (not ready, no image), when it is
    rejected the answer is 500 with the text of the error and the connection
    state is left as it was.  It never answers 400. *)
Theorem logout_ignores_ready_flag (env : Env) (w : World) :
  post_logout env w =
    match logout env (history w) with
    | None =>
        (Normal (respond 200 (JObj [("success", JBool true);
                                    ("message", JStr "Logged out successfully")])),
         {| conn := {| isReady := false; qrCodeData := "" |};
            history := (history w ++ [Logout None])%list;
            results := results w |})
    | Some e =>
        (Normal (respond 500 (failure (errorMessage e))),
         {| conn := conn w;
            history := (history w ++ [Logout (Some e)])%list;
            results := results w |})
    end /\
  statusOf (post_logout env w) <> Some 400.
Proof.
  unfold post_logout, tryCatch, bind, awaitLogout, settle, statusOf.
  destruct (logout env (history w)); cbn; split; (reflexivity || discriminate).
Qed.

(** C5 as worded fails: with the session not ready, [/logout] answers 200
    when the logout command resolves and 500 when it is rejected. *)
Lemma logout_not_ready_is_not_refused :
  isReady (conn idle) = false /\
  statusOf (post_logout obliging idle) = Some 200 /\
  statusOf (post_logout failFirst idle) = Some 500 /\
  statusOf (post_logout obliging idle) <> Some 400.
Proof.
  split; [reflexivity|]. split; [reflexivity|]. split; [reflexivity|].
  cbn. discriminate.
Qed.

(** ** Inbound messages *)

(** C4. For every inbound message the handler posts to the relay once and
    returns normally, whatever the relay and the session client do, and the
    connection state is as before.  It issues one reply command, with the
    [reply] of the relay's answer, when that answer is well-formed JSON with
    a non-empty [reply] field, and no reply command otherwise: none when the
    call is rejected (network error, time-out), none when the answer is not
    JSON, none when the [reply] field is missing or empty. *)
Theorem inbound_failures_are_swallowed (env : Env) (w : World) (msg : Message) :
  let o := fetch env (history w) GOOGLE_SCRIPT_URL (relayPayload msg) in
  exists replies,
    handleIncomingMessage msg env w =
      (Normal tt,
       {| conn := conn w;
          history := (history w ++ Fetch GOOGLE_SCRIPT_URL (relayPayload msg) o :: replies)%list;
          results := results w |}) /\
    ((replies = [] /\ forall v, ~ CarriesReply o v) \/
     (exists v out, replies = [Reply msg v out] /\ CarriesReply o v)) /\
    (forall e, o = Rejects e -> replies = []) /\
    (forall e, o = Resolves (NotJson e) -> replies = []) /\
    (forall v, o = Resolves (Json v) -> truthy (prop "reply" v) = false -> replies = []).
Proof.
  intros o. subst o.
  unfold handleIncomingMessage, tryCatch, bind, awaitFetch. fold (relayPayload msg).
  destruct (fetch env (history w) GOOGLE_SCRIPT_URL (relayPayload msg))
    as [e|[e|v]] eqn:Ef.
  1, 2: exists []; cbn; (split; [reflexivity|]);
    (split; [|repeat split; intros; congruence]);
    left; (split; [reflexivity|]); intros x (props & H & _); discriminate.
  destruct v as [| |b|q|s|items|props].
  7:{ cbn [awaitJson ret getProp prop].
      destruct (truthy (lookupProp "reply" props)) eqn:Et.
      - exists [Reply msg (lookupProp "reply" props)
                  (reply env
                     (history w ++
                      [Fetch GOOGLE_SCRIPT_URL (relayPayload msg)
                         (Resolves (Json (JObj props)))])%list
                     msg (lookupProp "reply" props))].
        unfold awaitReply, settle. cbn.
        split.
        + destruct (reply _ _ _ _); unfold ret, issue; cbn [conn history results];
            now rewrite <- app_assoc.
        + split; [right; do 2 eexists; split; [reflexivity|]; now exists props|].
          split; [intros; discriminate|]. split; [intros; discriminate|].
          intros v H Hv. injection H as <-. cbn in Hv. congruence.
      - exists []. cbn. split; [reflexivity|].
        split; [|repeat split; intros; congruence].
        left. split; [reflexivity|].
        intros x (props' & H & Hl & Hx). injection H as <-. congruence. }
  all: exists []; cbn; (split; [reflexivity|]);
    (split; [|repeat split; intros; congruence]);
    left; (split; [reflexivity|]); intros x (props & H & _); discriminate.
Qed.

Lemma inbound_failures_are_swallowed_witness :
  fetch failFirst (history connected) GOOGLE_SCRIPT_URL (relayPayload inbound) =
    Rejects (MkError "request timed out") /\
  handleIncomingMessage inbound failFirst connected =
    (Normal tt,
     {| conn := conn connected;
        history := [Fetch GOOGLE_SCRIPT_URL (relayPayload inbound)
                      (Rejects (MkError "request timed out"))];
        results := [] |}).
Proof.
  split; [reflexivity|].
  pose proof (inbound_failures_are_swallowed failFirst connected inbound) as H.
  cbv zeta in H. destruct H as (replies & Hrun & _ & Hrej & _).
  rewrite (Hrej (MkError "request timed out") eq_refl) in Hrun.
  exact Hrun.
Defined.

(** The three kinds of relay outcome on one message: a reply is sent for
    the answer that carries one, none when the answer is not JSON, none when
    the call fails. *)
Example inbound_runs :
  history (snd (handleIncomingMessage inbound obliging connected)) =
    [Fetch GOOGLE_SCRIPT_URL
       (JObj [("action", JStr "processMessage");
              ("from", JStr "919876543210");
              ("message", JStr "fees?")])
       (Resolves (Json (JObj [("reply", JStr "Welcome")])));
     Reply inbound (JStr "Welcome") None] /\
  sendTargets (history (snd (handleIncomingMessage inbound failSecond connected))) = [] /\
  List.length (history (snd (handleIncomingMessage inbound failSecond connected))) = 1 /\
  List.length (history (snd (handleIncomingMessage inbound failFirst connected))) = 1.
Proof. vm_compute. repeat split. Qed.

(** ** Further properties of [/send] *)

(** X1. [/send] answers 400 exactly when the session is not ready or the phone
    or the message is missing or falsy (an empty string, [0], [null],
    [false]); a request answered 400 issues no command and leaves the state
    as it was. *)
Theorem send_400_exactly_when (env : Env) (w : World) (req : Body) :
  (statusOf (post_send req env w) = Some 400 <->
     isReady (conn w) = false \/
     truthy (field "phone" req) = false \/
     truthy (field "message" req) = false) /\
  (statusOf (post_send req env w) = Some 400 -> snd (post_send req env w) = w).
Proof.
  rewrite post_send_cases.
  destruct (isReady (conn w)); cbn [negb].
  2:{ split; [split; auto | reflexivity]. }
  destruct (truthy (field "phone" req)) eqn:Ep; cbn [negb orb].
  2:{ split; [split; auto | reflexivity]. }
  destruct (truthy (field "message" req)) eqn:Em; cbn [negb orb].
  2:{ split; [split; auto | reflexivity]. }
  assert (Hno : ~ (true = false \/ true = false \/ true = false))
    by (intros [H|[H|H]]; discriminate).
  destruct (field "phone" req) as [| |b|q|s|items|props]; cbn zeta;
    try (split; [split; [discriminate | intros H; now elim Hno] | discriminate]).
  destruct (sendMessage env (history w) (chatId s) (field "message" req));
    (split; [split; [discriminate | intros H; now elim Hno] | discriminate]).
Qed.

Lemma send_400_exactly_when_witness :
  truthy (field "phone" noPhoneReq) = false /\
  statusOf (post_send noPhoneReq obliging connected) = Some 400 /\
  snd (post_send noPhoneReq obliging connected) = connected.
Proof.
  split; [reflexivity|].
  destruct (send_400_exactly_when obliging connected noPhoneReq) as [Hiff Hsame].
  assert (Hs : statusOf (post_send noPhoneReq obliging connected) = Some 400).
  { apply Hiff. right. left. reflexivity. }
  split; [exact Hs | exact (Hsame Hs)].
Defined.

(** X2. A [/send] that passes the checks and fails answers 500 with the text of
    the error: the text of the rejection when the send command is rejected
    (one command issued, no second try), and the text of the type error,
    with no command issued at all, when the phone is not a string (a JSON
    number, [true], an array or an object). *)
Theorem send_failures_answer_500 (env : Env) (w : World) (req : Body) :
  isReady (conn w) = true ->
  truthy (field "phone" req) = true ->
  truthy (field "message" req) = true ->
  (forall s e,
     field "phone" req = JStr s ->
     sendMessage env (history w) (chatId s) (field "message" req) = Some e ->
     post_send req env w =
       (Normal (respond 500 (failure (errorMessage e))),
        issue (SendMessage (chatId s) (field "message" req) (Some e)) w)) /\
  ((forall s, field "phone" req <> JStr s) ->
     post_send req env w =
       (Normal (respond 500 (failure "phone.replace is not a function")), w)).
Proof.
  intros Hr Hp Hm. rewrite post_send_cases, Hr, Hp, Hm. cbn [negb orb].
  split.
  - intros s e Hs He. rewrite Hs. cbn zeta. now rewrite He.
  - intros Hns.
    destruct (field "phone" req) as [| |b|q|s|items|props];
      try discriminate; try reflexivity.
    now elim (Hns s).
Qed.

Lemma send_failures_answer_500_witness :
  isReady (conn connected) = true /\
  truthy (field "phone" numericPhoneReq) = true /\
  truthy (field "message" numericPhoneReq) = true /\
  (forall s, field "phone" numericPhoneReq <> JStr s) /\
  post_send numericPhoneReq obliging connected =
    (Normal (respond 500 (failure "phone.replace is not a function")), connected).
Proof.
  split; [reflexivity|]. split; [reflexivity|]. split; [reflexivity|].
  split; [intros s; discriminate|].
  apply (proj2 (send_failures_answer_500 obliging connected numericPhoneReq
                  eq_refl eq_refl eq_refl)).
  intros s; discriminate.
Defined.

(** X3. [/send] does not reject a phone string without any digit: the message
    is handed to the session client for the chat identifier [@c.us]. *)
Theorem send_accepts_phone_without_digits
    (env : Env) (w : World) (req : Body) (s : string) :
  isReady (conn w) = true ->
  field "phone" req = JStr s ->
  s <> "" ->
  stripNonDigits s = "" ->
  truthy (field "message" req) = true ->
  history (snd (post_send req env w)) =
    (history w ++
     [SendMessage "@c.us" (field "message" req)
        (sendMessage env (history w) "@c.us" (field "message" req))])%list.
Proof.
  intros Hr Hp Hs Hd Hm.
  assert (Ht : truthy (JStr s) = true).
  { cbn. destruct (String.eqb_spec s ""); [contradiction | reflexivity]. }
  assert (Hc : chatId s = "@c.us").
  { unfold chatId, phoneNumber. now rewrite Hd. }
  rewrite post_send_cases, Hr, Hp, Ht, Hm, Hc. reflexivity.
Qed.

Lemma send_accepts_phone_without_digits_witness :
  isReady (conn connected) = true /\
  field "phone" noDigitsReq = JStr "n/a" /\
  "n/a" <> "" /\
  stripNonDigits "n/a" = "" /\
  truthy (field "message" noDigitsReq) = true /\
  history (snd (post_send noDigitsReq obliging connected)) =
    (history connected ++
     [SendMessage "@c.us" (field "message" noDigitsReq)
        (sendMessage obliging (history connected) "@c.us"
           (field "message" noDigitsReq))])%list.
Proof.
  split; [reflexivity|]. split; [reflexivity|]. split; [discriminate|].
  split; [reflexivity|]. split; [reflexivity|].
  apply (send_accepts_phone_without_digits obliging connected noDigitsReq "n/a");
    (reflexivity || discriminate).
Defined.

(** ** Further properties of [/send-bulk] *)

(** X4. While the session is not ready [/send-bulk] answers 400 whatever the
    body is, before looking at it, and issues no command. *)
Theorem bulk_refused_when_not_ready (env : Env) (w : World) (req : Body) :
  isReady (conn w) = false ->
  post_send_bulk req env w =
    (Normal (respond 400 (failure "WhatsApp is not connected")), w).
Proof.
  intros Hr. unfold post_send_bulk. unfold bind at 1. unfold readReady.
  now rewrite Hr.
Qed.

Lemma bulk_refused_when_not_ready_witness :
  isReady (conn pairing) = false /\
  post_send_bulk bulkReq obliging pairing =
    (Normal (respond 400 (failure "WhatsApp is not connected")), pairing).
Proof.
  split; [reflexivity|].
  apply (bulk_refused_when_not_ready obliging pairing bulkReq). reflexivity.
Defined.


Section PauseCount.

Variable message : JsValue.


End PauseCount.



(** ** Further properties of the string operations *)

Lemma stripNonDigits_idempotent (s : string) :
  stripNonDigits (stripNonDigits s) = stripNonDigits s.
Proof.
  induction s as [|c s IH]; [reflexivity|]. cbn [stripNonDigits].
  destruct (isDigit c) eqn:E; [|exact IH].
  cbn [stripNonDigits]. now rewrite E, IH.
Qed.

Lemma isDigit_not_at (c : ascii) : isDigit c = true -> Ascii.eqb c "@" = false.
Proof.
  intros H. destruct (Ascii.eqb_spec c "@") as [->|]; [discriminate H | reflexivity].
Qed.

Lemma stripNonDigits_lacks_at (s : string) :
  lacksChar "@" (stripNonDigits s) = true.
Proof.
  induction s as [|c s IH]; [reflexivity|]. cbn [stripNonDigits].
  destruct (isDigit c) eqn:E; [|exact IH].
  cbn [lacksChar]. now rewrite (isDigit_not_at c E), IH.
Qed.

Lemma phoneNumber_cases (phone : string) :
  (phoneNumber phone = "91" ++ stripNonDigits phone /\
   String.length (stripNonDigits phone) = 10) \/
  (phoneNumber phone = stripNonDigits phone /\
   negb (startsWith "91" (stripNonDigits phone)) &&
   Nat.eqb (String.length (stripNonDigits phone)) 10 = false).
Proof.
  unfold phoneNumber.
  destruct (negb (startsWith "91" (stripNonDigits phone)) &&
            Nat.eqb (String.length (stripNonDigits phone)) 10) eqn:Ec.
  - left. split; [reflexivity|].
    apply andb_prop in Ec. now apply Nat.eqb_eq.
  - right. now split.
Qed.

Lemma phoneNumber_digits_only (phone : string) :
  stripNonDigits (phoneNumber phone) = phoneNumber phone.
Proof.
  assert (Hd := stripNonDigits_idempotent phone).
  destruct (phoneNumber_cases phone) as [[-> _]|[-> _]]; [|exact Hd].
  cbn. now rewrite Hd.
Qed.

(** X7. The normalised number is canonical: it consists of digits only,
    normalising it again changes nothing, and it is never a ten-digit
    number without the prefix 91. *)
Theorem phoneNumber_canonical (phone : string) :
  stripNonDigits (phoneNumber phone) = phoneNumber phone /\
  phoneNumber (phoneNumber phone) = phoneNumber phone /\
  (String.length (phoneNumber phone) = 10 ->
   startsWith "91" (phoneNumber phone) = true).
Proof.
  split; [apply phoneNumber_digits_only|].
  assert (Hd := stripNonDigits_idempotent phone).
  assert (Hs := phoneNumber_digits_only phone).
  destruct (phoneNumber_cases phone) as [[E El]|[E Ec]]; rewrite E in *.
  - split.
    + unfold phoneNumber. rewrite Hs.
      assert (Hp : startsWith "91" ("91" ++ stripNonDigits phone) = true)
        by (apply startsWith_91; now eexists).
      now rewrite Hp.
    + intros Hl. cbn in Hl. lia.
  - split.
    + unfold phoneNumber. now rewrite Hd, Ec.
    + intros Hl. rewrite Hl in Ec. cbn in Ec. rewrite andb_true_r in Ec.
      now apply negb_false_iff in Ec.
Qed.

Lemma phoneNumber_canonical_witness :
  String.length (phoneNumber "91-9876-5432") = 10 /\
  startsWith "91" (phoneNumber "91-9876-5432") = true.
Proof.
  split; [reflexivity|].
  apply (proj2 (proj2 (phoneNumber_canonical "91-9876-5432"))). reflexivity.
Defined.

Lemma prefix_app (p r : string) : String.prefix p (p ++ r) = true.
Proof.
  induction p as [|a p IH]; cbn; [now destruct r|].
  destruct (ascii_dec a a) as [_|n]; [exact IH | now elim n].
Qed.

Lemma prefix_true_app (p s : string) :
  String.prefix p s = true -> exists r, s = p ++ r.
Proof.
  revert s. induction p as [|a p IH]; intros s H.
  - now exists s.
  - destruct s as [|b s]; [discriminate H|]. cbn in H.
    destruct (ascii_dec a b) as [<-|]; [|discriminate H].
    destruct (IH s H) as [r ->]. now exists r.
Qed.

Lemma substring_whole (r : string) : String.substring 0 (String.length r) r = r.
Proof. induction r as [|c r IH]; cbn; [reflexivity | now rewrite IH]. Qed.

Lemma replaceFirst_at_head (b : string) : replaceFirst "@c.us" "" ("@c.us" ++ b) = b.
Proof.
  change ("@c.us" ++ b) with (String "@" ("c.us" ++ b)).
  cbn [replaceFirst].
  change (String "@" ("c.us" ++ b)) with ("@c.us" ++ b).
  rewrite prefix_app, length_append.
  replace (String.length "@c.us" + String.length b - String.length "@c.us")
    with (String.length b) by (cbn; lia).
  cbn. apply substring_whole.
Qed.

(** X8. [replace('@c.us', '')] removes the first [@c.us] and nothing else: a
    sender identifier made of a part without [@], then [@c.us], then
    anything, loses exactly that [@c.us].  So the phone that the inbound
    handler passes to the relay for a sender with the chat identifier of
    some phone is the normalised number of that phone: the handler undoes
    what [/send] adds. *)
Theorem replaceFirst_removes_first_suffix :
  (forall a b,
     lacksChar "@" a = true ->
     replaceFirst "@c.us" "" (a ++ "@c.us" ++ b) = a ++ b) /\
  (forall phone, replaceFirst "@c.us" "" (chatId phone) = phoneNumber phone) /\
  (forall phone text,
     prop "from" (relayPayload {| from := chatId phone; body := text |}) =
       JStr (phoneNumber phone)).
Proof.
  assert (H1 : forall a b,
             lacksChar "@" a = true ->
             replaceFirst "@c.us" "" (a ++ "@c.us" ++ b) = a ++ b).
  { induction a as [|c a IH]; intros b Ha.
    - apply replaceFirst_at_head.
    - cbn [lacksChar] in Ha. apply andb_prop in Ha. destruct Ha as [Hc Ha].
      change (String c a ++ "@c.us" ++ b) with (String c (a ++ "@c.us" ++ b)).
      cbn [replaceFirst].
      assert (Hp : String.prefix "@c.us" (String c (a ++ "@c.us" ++ b)) = false).
      { cbn [String.prefix]. destruct (ascii_dec "@" c) as [<-|]; [|reflexivity].
        discriminate Hc. }
      rewrite Hp, (IH b Ha). reflexivity. }
  assert (H2 : forall phone, replaceFirst "@c.us" "" (chatId phone) = phoneNumber phone).
  { intros phone. unfold chatId.
    assert (Hl : lacksChar "@" (phoneNumber phone) = true).
    { rewrite <- (phoneNumber_digits_only phone). apply stripNonDigits_lacks_at. }
    assert (E := H1 (phoneNumber phone) "" Hl).
    assert (Hnil : forall s, s ++ "" = s)
      by (induction s as [|c s IHs]; cbn; [reflexivity | now rewrite IHs]).
    change ("@c.us" ++ "") with "@c.us" in E. now rewrite Hnil in E. }
  split; [exact H1|]. split; [exact H2|].
  intros phone text. unfold relayPayload. cbn [from body].
  rewrite H2. reflexivity.
Qed.

Lemma replaceFirst_removes_first_suffix_witness :
  lacksChar "@" "919876543210" = true /\
  replaceFirst "@c.us" "" ("919876543210" ++ "@c.us" ++ "@c.us") =
    "919876543210" ++ "@c.us".
Proof.
  split; [reflexivity|].
  apply (proj1 replaceFirst_removes_first_suffix "919876543210" "@c.us").
  reflexivity.
Defined.

(** X9. A sender identifier in which [@c.us] does not occur, such as the
    identifier of a group, reaches the relay unchanged. *)
Theorem replaceFirst_without_suffix (s : string) :
  ~ Occurs "@c.us" s -> replaceFirst "@c.us" "" s = s.
Proof.
  induction s as [|c s IH]; intros Hn; [reflexivity|].
  cbn [replaceFirst].
  destruct (String.prefix "@c.us" (String c s)) eqn:Ep.
  - apply prefix_true_app in Ep. destruct Ep as [r Hr].
    elim Hn. exists "", r. exact Hr.
  - rewrite IH; [reflexivity|].
    intros (before & after & ->). apply Hn.
    now exists (String c before), after.
Qed.

Lemma replaceFirst_without_suffix_witness :
  ~ Occurs "@c.us" "1203@g.us" /\
  replaceFirst "@c.us" "" "1203@g.us" = "1203@g.us".
Proof.
  assert (Hn : ~ Occurs "@c.us" "1203@g.us").
  { intros (before & after & H).
    assert (El := f_equal String.length H).
    rewrite !length_append in El. cbn in El.
    destruct before as [|c0 [|c1 [|c2 [|c3 [|c4 before]]]]];
      cbn in H; try discriminate H.
    cbn in El. lia. }
  split; [exact Hn|].
  apply (replaceFirst_without_suffix "1203@g.us"). exact Hn.
Defined.

(** *** [trim] *)

Lemma whiteSpace_nonEmpty : Forall nonEmpty whiteSpace.
Proof.
  unfold whiteSpace.
  repeat (apply Forall_cons; [discriminate|]). apply Forall_nil.
Qed.

Lemma whiteSpace_rev_nonEmpty : Forall nonEmpty (map (@rev nat) whiteSpace).
Proof.
  unfold whiteSpace. cbn.
  repeat (apply Forall_cons; [discriminate|]). apply Forall_nil.
Qed.

Lemma leadingSpace_zero_iff (ws : list (list nat)) (l : list nat) :
  Forall nonEmpty ws ->
  (leadingSpace ws l = 0 <-> Forall (fun w => startsWithBytes w l = false) ws).
Proof.
  induction 1 as [|w ws Hw _ IH]; cbn.
  - split; [constructor | reflexivity].
  - destruct (startsWithBytes w l) eqn:E.
    + split.
      * intros H0. destruct w; [now elim Hw | discriminate H0].
      * intros HF. inversion HF; congruence.
    + rewrite IH. split; [now constructor | intros HF; now inversion HF].
Qed.

Lemma startsWithBytes_firstn (w l : list nat) (k : nat) :
  startsWithBytes w (firstn k l) = true -> startsWithBytes w l = true.
Proof.
  revert l k. induction w as [|x w IH]; intros l k H; [reflexivity|].
  destruct k, l as [|y l]; cbn in H; try discriminate H.
  cbn. apply andb_prop in H. destruct H as [-> H]. cbn. exact (IH l k H).
Qed.

Lemma leadingSpace_firstn (ws : list (list nat)) (l : list nat) (k : nat) :
  Forall nonEmpty ws ->
  leadingSpace ws l = 0 -> leadingSpace ws (firstn k l) = 0.
Proof.
  intros Hne H0.
  apply (leadingSpace_zero_iff ws _ Hne).
  apply (leadingSpace_zero_iff ws _ Hne) in H0.
  revert H0. apply Forall_impl. intros w Hw.
  destruct (startsWithBytes w (firstn k l)) eqn:E; [|reflexivity].
  apply startsWithBytes_firstn in E. congruence.
Qed.

Lemma leadingSpace_nil (ws : list (list nat)) :
  Forall nonEmpty ws -> leadingSpace ws [] = 0.
Proof.
  intros Hne. apply (leadingSpace_zero_iff ws _ Hne).
  revert Hne. apply Forall_impl. intros w Hw. destruct w; [now elim Hw | reflexivity].
Qed.

Lemma dropLeading_fixed (ws : list (list nat)) (fuel : nat) (l : list nat) :
  leadingSpace ws l = 0 -> dropLeading ws fuel l = l.
Proof. intros H. destruct fuel; cbn; [reflexivity | now rewrite H]. Qed.

(** The fuel is enough: with at least as much fuel as bytes, what is left
    starts with no white space. *)
Lemma dropLeading_done (ws : list (list nat)) :
  Forall nonEmpty ws ->
  forall fuel l,
    List.length l <= fuel -> leadingSpace ws (dropLeading ws fuel l) = 0.
Proof.
  intros Hne. induction fuel as [|fuel IH]; intros l Hl.
  - destruct l; [|cbn in Hl; lia]. cbn. now apply leadingSpace_nil.
  - cbn [dropLeading]. destruct (leadingSpace ws l) as [|n] eqn:E; [exact E|].
    apply IH. rewrite length_skipn.
    destruct l as [|x l]; [rewrite (leadingSpace_nil ws Hne) in E; discriminate E|].
    cbn [List.length] in *. lia.
Qed.

Lemma dropLeading_skipn (ws : list (list nat)) (fuel : nat) (l : list nat) :
  exists k, dropLeading ws fuel l = skipn k l.
Proof.
  revert l. induction fuel as [|fuel IH]; intros l.
  - now exists 0.
  - cbn [dropLeading]. destruct (leadingSpace ws l) as [|n]; [now exists 0|].
    destruct (IH (skipn (S n) l)) as [k ->].
    exists (k + S n). apply skipn_skipn.
Qed.

Lemma Forall_skipn_keep {A} (P : A -> Prop) (k : nat) (l : list A) :
  Forall P l -> Forall P (skipn k l).
Proof.
  revert l. induction k as [|k IH]; intros l H; [exact H|].
  destruct H; [constructor | now apply IH].
Qed.

Lemma bytesOf_bound (s : string) : Forall (fun n => n < 256) (bytesOf s).
Proof.
  unfold bytesOf. apply Forall_forall. intros n Hn.
  apply in_map_iff in Hn. destruct Hn as (a & <- & _). apply nat_ascii_bounded.
Qed.

Lemma bytesOf_ofBytes (l : list nat) :
  Forall (fun n => n < 256) l -> bytesOf (ofBytes l) = l.
Proof.
  unfold bytesOf, ofBytes. rewrite list_ascii_of_string_of_list_ascii, map_map.
  induction 1 as [|n l Hn _ IH]; cbn; [reflexivity|].
  now rewrite IH, nat_ascii_embedding.
Qed.

(** What [trim] keeps: a stretch of the bytes of [s] before which and
    after which nothing is left to remove. *)
Lemma trim_bytes (s : string) :
  exists k m,
    bytesOf (trim s) = firstn m (skipn k (bytesOf s)) /\
    trim s = ofBytes (firstn m (skipn k (bytesOf s))) /\
    leadingSpace whiteSpace (skipn k (bytesOf s)) = 0 /\
    leadingSpace (map (@rev nat) whiteSpace)
      (rev (firstn m (skipn k (bytesOf s)))) = 0.
Proof.
  unfold trim. cbv zeta.
  destruct (dropLeading_skipn whiteSpace (List.length (bytesOf s)) (bytesOf s))
    as [k Hk].
  assert (H1 := dropLeading_done whiteSpace whiteSpace_nonEmpty
                  (List.length (bytesOf s)) (bytesOf s) (le_n _)).
  rewrite Hk in *.
  set (l1 := skipn k (bytesOf s)) in *.
  destruct (dropLeading_skipn (map (@rev nat) whiteSpace) (List.length l1) (rev l1))
    as [j Hj].
  assert (H2 := dropLeading_done (map (@rev nat) whiteSpace) whiteSpace_rev_nonEmpty
                  (List.length l1) (rev l1)).
  rewrite length_rev in H2. specialize (H2 (le_n _)).
  rewrite Hj in *. rewrite skipn_rev in *. rewrite rev_involutive.
  exists k, (List.length l1 - j).
  assert (Hb : Forall (fun n => n < 256) (firstn (List.length l1 - j) l1)).
  { apply Forall_forall. intros n Hn.
    assert (Hin : In n (bytesOf s)).
    { rewrite <- (firstn_skipn k (bytesOf s)). apply in_or_app. right.
      fold l1. rewrite <- (firstn_skipn (List.length l1 - j) l1).
      apply in_or_app. now left. }
    exact (proj1 (Forall_forall _ _) (bytesOf_bound s) n Hin). }
  split; [now apply bytesOf_ofBytes|]. split; [reflexivity|].
  split; [exact H1 | exact H2].
Qed.

(** X10. The text posted to the relay is the body of the message trimmed in
    full: it neither starts nor ends with a white-space character (the fuel
    of [trim] always suffices), trimming it again changes nothing, and it is
    a stretch of the bytes of the body, so that only the two ends are
    removed. *)
Theorem relayed_text_is_trimmed (msg : Message) :
  exists text,
    prop "message" (relayPayload msg) = JStr text /\
    leadingSpace whiteSpace (bytesOf text) = 0 /\
    leadingSpace (map (@rev nat) whiteSpace) (rev (bytesOf text)) = 0 /\
    trim text = text /\
    exists before after,
      bytesOf (body msg) = (before ++ bytesOf text ++ after)%list.
Proof.
  exists (trim (body msg)). split; [reflexivity|].
  generalize (body msg) as s. intros s.
  destruct (trim_bytes s) as (k & m & Hb & Ht & H1 & H2).
  assert (Hlead : leadingSpace whiteSpace (bytesOf (trim s)) = 0).
  { rewrite Hb. now apply leadingSpace_firstn; [apply whiteSpace_nonEmpty|]. }
  assert (Htrail : leadingSpace (map (@rev nat) whiteSpace) (rev (bytesOf (trim s))) = 0)
    by now rewrite Hb.
  split; [exact Hlead|]. split; [exact Htrail|]. split.
  - unfold trim at 1. cbv zeta.
    rewrite (dropLeading_fixed whiteSpace _ _ Hlead).
    rewrite (dropLeading_fixed _ _ _ Htrail).
    rewrite rev_involutive, Hb. symmetry. exact Ht.
  - exists (firstn k (bytesOf s)), (skipn m (skipn k (bytesOf s))).
    rewrite Hb, firstn_skipn, firstn_skipn. reflexivity.
Qed.

(** ** Session callbacks and read-only routes *)

Lemma callbacks_on_state_witness :
  toDataURL obliging "2@abc" = inr "data:image/png;base64,2@abc" /\
  conn (snd (dispatch (EvQr "2@abc") obliging connected)) =
    {| isReady := isReady (conn connected);
       qrCodeData := "data:image/png;base64,2@abc" |} /\
  toDataURL failFirst "" = inl (MkError "No input text") /\
  snd (dispatch (EvQr "") failFirst pairing) = pairing.
Proof.
  destruct (callbacks_on_state obliging connected) as (Hok & _).
  destruct (callbacks_on_state failFirst pairing) as (_ & Hfail & _).
  split; [reflexivity|]. split; [apply Hok; reflexivity|].
  split; [reflexivity|]. apply (Hfail "" (MkError "No input text")). reflexivity.
Defined.

(** X12. [/health], [/status] and [/qr] always answer 200, change nothing and
    agree on whether the session is connected; [/status] reports an image as
    available exactly when one is stored, also while connected, whereas
    [/qr] hands an image out exactly when [/status] says not connected and
    available. *)
Theorem status_routes_agree (env : Env) (w : World) (t1 t2 : string) :
  exists health st qr,
    get_health t1 env w = (Normal (respond 200 health), w) /\
    get_status t2 env w = (Normal (respond 200 st), w) /\
    get_qr env w = (Normal (respond 200 qr), w) /\
    prop "whatsapp" health = JBool (isReady (conn w)) /\
    prop "connected" st = JBool (isReady (conn w)) /\
    prop "connected" qr = JBool (isReady (conn w)) /\
    (prop "qrAvailable" st = JBool true <-> qrCodeData (conn w) <> "") /\
    (prop "qrCode" qr <> JNull <->
       prop "connected" st = JBool false /\ prop "qrAvailable" st = JBool true).
Proof.
  unfold get_health, get_status, get_qr, bind, readReady, readQr, ret. cbn [truthy].
  destruct (isReady (conn w)) eqn:Er;
    destruct (String.eqb_spec (qrCodeData (conn w)) "") as [Eq|Eq];
    do 3 eexists;
    (split; [reflexivity|]); (split; [reflexivity|]); (split; [reflexivity|]);
    cbn; (split; [reflexivity|]); (split; [reflexivity|]); (split; [reflexivity|]);
    (split; [split; intros H | split; [intros H | intros [H1 H2]]]);
    try discriminate; try congruence; try reflexivity;
    try (now elim H); try (split; reflexivity).
Qed.

Lemma get_info_cases (env : Env) (w : World) (clientInfo : JsValue) :
  get_info clientInfo env w =
    (Normal
       (if negb (isReady (conn w)) then
          respond 400 (failure "WhatsApp is not connected")
        else if nullish clientInfo then
          respond 500 (failure (errorMessage (propTypeError "pushname" clientInfo)))
        else if nullish (prop "wid" clientInfo) then
          respond 500
            (failure (errorMessage
                        (propTypeError "_serialized" (prop "wid" clientInfo))))
        else
          respond 200
            (JObj [("success", JBool true);
                   ("info",
                    JObj [("pushname", prop "pushname" clientInfo);
                          ("wid", prop "_serialized" (prop "wid" clientInfo));
                          ("platform", prop "platform" clientInfo)])])),
     w).
Proof.
  unfold get_info, bind, readReady, tryCatch.
  destruct (isReady (conn w)); [|reflexivity].
  destruct clientInfo as [| |b|q|s|items|props]; try reflexivity.
  cbn. now destruct (lookupProp "wid" props).
Qed.

(** X13. [/info] reads the state and the client's [info] only: it answers 400
    when the session is not ready; when it is ready it answers 200 with the
    display name, the serialised identifier and the platform if [info] and
    its [wid] are there, and 500 with the text of the type error if [info]
    or its [wid] is [null] or [undefined].  It never changes the state and
    issues no command. *)
Theorem info_answers (env : Env) (w : World) (clientInfo : JsValue) :
  snd (get_info clientInfo env w) = w /\
  (isReady (conn w) = false ->
     fst (get_info clientInfo env w) =
       Normal (respond 400 (failure "WhatsApp is not connected"))) /\
  (isReady (conn w) = true ->
   nullish clientInfo = false ->
   nullish (prop "wid" clientInfo) = false ->
     fst (get_info clientInfo env w) =
       Normal (respond 200
                 (JObj [("success", JBool true);
                        ("info",
                         JObj [("pushname", prop "pushname" clientInfo);
                               ("wid", prop "_serialized" (prop "wid" clientInfo));
                               ("platform", prop "platform" clientInfo)])]))) /\
  (isReady (conn w) = true ->
   nullish clientInfo = true ->
     fst (get_info clientInfo env w) =
       Normal (respond 500
                 (failure (errorMessage (propTypeError "pushname" clientInfo))))) /\
  (isReady (conn w) = true ->
   nullish clientInfo = false ->
   nullish (prop "wid" clientInfo) = true ->
     fst (get_info clientInfo env w) =
       Normal (respond 500
                 (failure (errorMessage
                             (propTypeError "_serialized" (prop "wid" clientInfo)))))).
Proof.
  rewrite get_info_cases. cbn [fst snd].
  split; [reflexivity|].
  split; [intros ->; reflexivity|].
  split; [intros -> -> ->; reflexivity|].
  split; [intros -> ->; reflexivity|].
  intros -> -> ->. reflexivity.
Qed.

Lemma info_answers_witness :
  isReady (conn connected) = true /\
  nullish clientInfoSample = false /\
  nullish (prop "wid" clientInfoSample) = false /\
  fst (get_info clientInfoSample obliging connected) =
    Normal (respond 200
              (JObj [("success", JBool true);
                     ("info",
                      JObj [("pushname", prop "pushname" clientInfoSample);
                            ("wid", prop "_serialized" (prop "wid" clientInfoSample));
                            ("platform", prop "platform" clientInfoSample)])])) /\
  nullish JUndefined = true /\
  fst (get_info JUndefined obliging connected) =
    Normal (respond 500
              (failure (errorMessage (propTypeError "pushname" JUndefined)))).
Proof.
  destruct (info_answers obliging connected clientInfoSample) as (_ & _ & Hok & _).
  destruct (info_answers obliging connected JUndefined) as (_ & _ & _ & Hnull & _).
  split; [reflexivity|]. split; [reflexivity|]. split; [reflexivity|].
  split; [apply Hok; reflexivity|].
  split; [reflexivity|]. apply Hnull; reflexivity.
Defined.

(** ** The server as a whole *)

Lemma sendTargets_snoc_other (tr : list Effect) (e : Effect) :
  (forall c m o, e <> SendMessage c m o) ->
  sendTargets (tr ++ [e]) = sendTargets tr.
Proof.
  intros He. rewrite sendTargets_app. cbn.
  destruct e; try now rewrite app_nil_r.
  now elim (He to_ content outcome).
Qed.

Lemma handleIncomingMessage_frame (env : Env) (w : World) (msg : Message) :
  exists tr,
    handleIncomingMessage msg env w =
      (Normal tt,
       {| conn := conn w; history := (history w ++ tr)%list; results := results w |}) /\
    sendTargets tr = [].
Proof.
  unfold handleIncomingMessage, tryCatch, bind, awaitFetch.
  destruct (fetch env (history w) GOOGLE_SCRIPT_URL _) as [e|[e|v]].
  1, 2: eexists [_]; split; reflexivity.
  destruct v as [| |b|q|s|items|props]; try (eexists [_]; split; reflexivity).
  cbn [awaitJson ret getProp prop].
  destruct (truthy (lookupProp "reply" props)); [|eexists [_]; split; reflexivity].
  unfold awaitReply, settle.
  destruct (reply env _ msg (lookupProp "reply" props));
    eexists [_; _];
    (split; [unfold ret, issue; cbn [conn history results]; now rewrite <- app_assoc
            | reflexivity]).
Qed.

Lemma post_send_bulk_frame (env : Env) (w : World) (req : Body) :
  exists resp w',
    post_send_bulk req env w = (Normal resp, w') /\
    conn w' = conn w /\
    ((status resp = 400 /\ w' = w) \/ (status resp = 200 /\ isReady (conn w) = true)).
Proof.
  destruct (isReady (conn w)) eqn:Hr.
  - destruct (truthy (field "message" req)) eqn:Hm.
    + destruct (field "recipients" req) as [| |b|q|s|items|props] eqn:Hrec.
      6:{ destruct (post_send_bulk_run env w req items Hr Hrec Hm)
            as (tr & entries & _ & ->).
          do 2 eexists. split; [reflexivity|]. split; [reflexivity|]. now right. }
      all: unfold post_send_bulk; rewrite Hrec, Hm; unfold bind at 1, readReady;
        rewrite Hr; cbn [isArray negb]; rewrite ?orb_true_r; cbn [orb];
        do 2 eexists; (split; [reflexivity|]);
        (split; [reflexivity|]); now left.
    + unfold post_send_bulk. rewrite Hm. unfold bind at 1, readReady. rewrite Hr.
      cbn [negb]. rewrite !orb_true_r.
      do 2 eexists. split; [reflexivity|]. split; [reflexivity|]. now left.
  - unfold post_send_bulk. unfold bind at 1. unfold readReady. rewrite Hr.
    do 2 eexists. split; [reflexivity|]. split; [reflexivity|]. now left.
Qed.

Ltac close_summary :=
  cbn [status respond conn history results fst snd issue];
  repeat match goal with
         | |- _ /\ _ => split
         | |- _ -> _ => intro
         end;
  try solve [ reflexivity | assumption | discriminate | congruence
            | now left | now (right; left) | now (right; right)
            | apply sendTargets_snoc_other; intros; discriminate ].

Lemma route_summary (r : Request) (env : Env) (w : World) :
  exists resp w',
    route r env w = (Normal resp, w') /\
    answered resp /\
    (r <> PostLogout -> conn w' = conn w) /\
    (isReady (conn w) = false ->
       isReady (conn w') = false /\
       sendTargets (history w') = sendTargets (history w)).
Proof.
  unfold answered.
  destruct r as [t|t| |info|req|req|]; cbn [route].
  - eexists _, w. split; [reflexivity|]. close_summary.
  - eexists _, w. split; [reflexivity|]. close_summary.
  - assert (H : exists resp, get_qr env w = (Normal resp, w) /\ status resp = 200).
    { unfold get_qr, bind, readReady, readQr.
      destruct (isReady (conn w)); [|destruct (truthy (JStr (qrCodeData (conn w))))];
        eexists; split; reflexivity. }
    destruct H as (resp & -> & Hs). exists resp, w.
    split; [reflexivity|]. close_summary.
  - rewrite get_info_cases. eexists _, w. split; [reflexivity|].
    destruct (negb (isReady (conn w))); [close_summary|].
    destruct (nullish info); [close_summary|].
    destruct (nullish (prop "wid" info)); close_summary.
  - rewrite post_send_cases.
    destruct (isReady (conn w)) eqn:Hr; cbn [negb].
    2:{ eexists _, w. split; [reflexivity|]. close_summary. }
    destruct (negb (truthy (field "phone" req)) || negb (truthy (field "message" req))).
    { eexists _, w. split; [reflexivity|]. close_summary. }
    destruct (field "phone" req) as [| |b|q|s|items|props];
      try (eexists _, w; split; [reflexivity|]; close_summary).
    cbn zeta.
    destruct (sendMessage env (history w) (chatId s) (field "message" req));
      do 2 eexists; (split; [reflexivity|]); close_summary.
  - destruct (post_send_bulk_frame env w req) as (resp & w' & -> & Hc & Hs).
    exists resp, w'. split; [reflexivity|].
    split; [destruct Hs as [[-> _]|[-> _]]; auto|].
    split; [intros _; exact Hc|].
    intros Hr. destruct Hs as [[_ ->]|[_ Ht]]; [now split | congruence].
  - unfold post_logout, tryCatch, bind, awaitLogout, settle.
    destruct (logout env (history w)) as [e|];
      do 2 eexists; (split; [reflexivity|]); close_summary.
    all: now elim H.
Qed.

Lemma dispatch_summary (ev : ClientEvent) (env : Env) (w : World) :
  exists w',
    dispatch ev env w = (Normal tt, w') /\
    (writesState (Emitted ev) = false -> conn w' = conn w) /\
    (isReady (conn w) = false -> ev <> EvReady ->
       isReady (conn w') = false /\
       sendTargets (history w') = sendTargets (history w)).
Proof.
  destruct ev as [qr| | |m|msg|reason]; cbn [dispatch writesState].
  - unfold on_qr, tryCatch, writeQr, ret.
    destruct (toDataURL env qr); eexists; (split; [reflexivity|]);
      (split; [discriminate|]); cbn; auto.
  - eexists. split; [reflexivity|]. split; [discriminate|].
    intros _ H. now elim H.
  - exists w. repeat split; auto.
  - eexists. split; [reflexivity|]. split; [discriminate|]. cbn. auto.
  - unfold on_message.
    destruct (handleIncomingMessage_frame env w msg) as (tr & -> & Ht).
    eexists. split; [reflexivity|]. cbn. split; [reflexivity|].
    intros Hr _. split; [exact Hr|].
    now rewrite sendTargets_app, Ht, app_nil_r.
  - eexists. split; [reflexivity|]. split; [discriminate|]. cbn. auto.
Qed.

Lemma react_summary (i : Input) (env : Env) (w : World) :
  exists rs w',
    react i env w = (Normal rs, w') /\
    Forall answered rs /\
    List.length rs = (if isRequest i then 1 else 0) /\
    (writesState i = false -> conn w' = conn w) /\
    (isReady (conn w) = false -> isReadyEvent i = false ->
       isReady (conn w') = false /\
       sendTargets (history w') = sendTargets (history w)).
Proof.
  destruct i as [ev|r]; unfold react, bind.
  - destruct (dispatch_summary ev env w) as (w' & -> & Hc & Hs).
    exists [], w'. split; [reflexivity|]. split; [constructor|].
    split; [reflexivity|]. split; [exact Hc|].
    intros Hr He. apply Hs; [exact Hr|]. intros ->. discriminate He.
  - destruct (route_summary r env w) as (resp & w' & -> & Ha & Hc & Hs).
    exists [resp], w'. split; [reflexivity|].
    split; [constructor; [exact Ha | constructor]|].
    split; [reflexivity|]. split.
    + intros Hw. apply Hc. intros ->. discriminate Hw.
    + intros Hr _. now apply Hs.
Qed.

Lemma serve_summary (inputs : list Input) :
  forall env w, exists rs w',
    serve inputs env w = (Normal rs, w') /\
    Forall answered rs /\
    List.length rs = List.length (filter isRequest inputs) /\
    (forallb (fun i => negb (writesState i)) inputs = true -> conn w' = conn w) /\
    (isReady (conn w) = false ->
     forallb (fun i => negb (isReadyEvent i)) inputs = true ->
       isReady (conn w') = false /\
       sendTargets (history w') = sendTargets (history w)).
Proof.
  induction inputs as [|i rest IH]; intros env w.
  - exists [], w. repeat split; auto.
  - cbn [serve]. unfold bind at 1.
    destruct (react_summary i env w) as (r1 & w1 & -> & Ha1 & Hl1 & Hc1 & Hs1).
    unfold bind at 1.
    destruct (IH env w1) as (r2 & w2 & -> & Ha2 & Hl2 & Hc2 & Hs2).
    exists (r1 ++ r2)%list, w2. split; [reflexivity|].
    split; [now apply Forall_app|].
    split.
    { rewrite length_app, Hl1, Hl2. cbn [filter].
      destruct (isRequest i); reflexivity. }
    split.
    { cbn [forallb]. intros H. apply andb_prop in H. destruct H as [Hi Hrest].
      apply negb_true_iff in Hi. rewrite (Hc2 Hrest). exact (Hc1 Hi). }
    intros Hr H. cbn [forallb] in H. apply andb_prop in H. destruct H as [Hi Hrest].
    apply negb_true_iff in Hi.
    destruct (Hs1 Hr Hi) as [Hr1 Ht1].
    destruct (Hs2 Hr1 Hrest) as [Hr2 Ht2].
    split; [exact Hr2 | congruence].
Qed.

(** X14. The connection state is written by the callbacks of the [qr], [ready],
    [auth_failure] and [disconnected] events and by [/logout], and by
    nothing else: over any sequence of other inputs (inbound messages,
    [authenticated] events, [/health], [/status], [/qr], [/info], [/send],
    [/send-bulk]), each handled to its end, it stays as it was. *)
Theorem state_written_only_by_lifecycle_and_logout
    (inputs : list Input) (env : Env) (w : World) :
  forallb (fun i => negb (writesState i)) inputs = true ->
  conn (snd (serve inputs env w)) = conn w.
Proof.
  intros H.
  destruct (serve_summary inputs env w) as (rs & w' & -> & _ & _ & Hc & _).
  exact (Hc H).
Qed.

Lemma state_written_only_by_lifecycle_and_logout_witness :
  forallb (fun i => negb (writesState i)) readingInputs = true /\
  conn (snd (serve readingInputs failSecond connected)) = conn connected.
Proof.
  split; [reflexivity|].
  apply (state_written_only_by_lifecycle_and_logout readingInputs failSecond connected).
  reflexivity.
Defined.




(** X17. After a [/logout] that succeeded the session is closed for sending:
    [/send] and [/send-bulk] answer 400 without issuing a command, whatever
    their body, and [/qr] reports not connected with no image. *)
Theorem logged_out_session_refuses
    (env env' : Env) (w : World) (req : Body) :
  logout env (history w) = None ->
  conn (snd (post_logout env w)) = {| isReady := false; qrCodeData := "" |} /\
  post_send req env' (snd (post_logout env w)) =
    (Normal (respond 400
               (failure "WhatsApp is not connected. Please scan QR code first.")),
     snd (post_logout env w)) /\
  post_send_bulk req env' (snd (post_logout env w)) =
    (Normal (respond 400 (failure "WhatsApp is not connected")),
     snd (post_logout env w)) /\
  exists qr,
    fst (get_qr env' (snd (post_logout env w))) = Normal (respond 200 qr) /\
    prop "connected" qr = JBool false /\
    prop "qrCode" qr = JNull.
Proof.
  intros Hl.
  assert (Hc : conn (snd (post_logout env w)) = {| isReady := false; qrCodeData := "" |}).
  { unfold post_logout, tryCatch, bind, awaitLogout, settle. now rewrite Hl. }
  remember (snd (post_logout env w)) as w1 eqn:Ew. clear Ew.
  split; [exact Hc|]. split; [|split].
  - rewrite post_send_cases, Hc. reflexivity.
  - unfold post_send_bulk. unfold bind at 1. unfold readReady. now rewrite Hc.
  - destruct w1 as [[r q] h rs]. cbn in Hc. injection Hc as -> ->.
    eexists. split; [reflexivity|]. split; reflexivity.
Qed.

Lemma logged_out_session_refuses_witness :
  logout obliging (history connected) = None /\
  conn (snd (post_logout obliging connected)) =
    {| isReady := false; qrCodeData := "" |} /\
  post_send sendReq obliging (snd (post_logout obliging connected)) =
    (Normal (respond 400
               (failure "WhatsApp is not connected. Please scan QR code first.")),
     snd (post_logout obliging connected)) /\
  post_send_bulk sendReq obliging (snd (post_logout obliging connected)) =
    (Normal (respond 400 (failure "WhatsApp is not connected")),
     snd (post_logout obliging connected)) /\
  exists qr,
    fst (get_qr obliging (snd (post_logout obliging connected))) =
      Normal (respond 200 qr) /\
    prop "connected" qr = JBool false /\
    prop "qrCode" qr = JNull.
Proof.
  split; [reflexivity|].
  apply (logged_out_session_refuses obliging obliging connected sendReq).
  reflexivity.
Defined.

(** A session from pairing to logout, input by input. *)
Example session_run :
  map status
    (match fst (serve [Received (PostSend sendReq);
                       Emitted (EvQr "2@abc");
                       Received GetQr;
                       Emitted EvReady;
                       Received GetQr;
                       Received (PostSend sendReq);
                       Received PostLogout;
                       Received (PostSend sendReq)] obliging idle) with
     | Normal answers => answers
     | Thrown _ => []
     end) = [400; 200; 200; 200; 200; 400] /\
  sendTargets
    (history (snd (serve [Received (PostSend sendReq);
                          Emitted (EvQr "2@abc");
                          Received GetQr;
                          Emitted EvReady;
                          Received GetQr;
                          Received (PostSend sendReq);
                          Received PostLogout;
                          Received (PostSend sendReq)] obliging idle))) =
    ["919876543210@c.us"].
Proof. vm_compute. split; reflexivity. Qed.
